(** * codeIDE-backend: the Express/Mongoose server of [src/index.js]

    The server is one file: two Mongoose models ([User], [Project]), the
    middleware [authenticateToken] and eight route handlers.  Every handler
    is embedded as a function from the request, the environment of that
    request (clock, configuration, the randomness the libraries draw) and
    the database to a response and the database afterwards.  An [async]
    handler body that throws is a computation in the error monad [Result];
    its [catch] block turns the error into the response.

    The libraries the file calls (bcryptjs, jsonwebtoken, Mongoose's casting)
    are interfaces: a type class each, with the few laws the proofs use.
    The store itself is concrete: a collection is the list of its
    documents.  Left out are the CORS setup, [mongoose.connect],
    [app.listen] and the [console] output, which no response depends on. *)

From stdpp Require Import base option strings pretty list sorting gmap.
From Stdlib Require Import ZArith.

#[local] Set Warnings "-register-all,-clear-no-such-hyp".
#[local] Open Scope Z_scope.

(** ** JavaScript values *)

(** What [express.json()] can put in [req.body], plus [undefined], which a
    property read yields for a missing key.  JSON numbers are represented by
    the integers. *)
Inductive JsValue : Type :=
| JUndefined
| JNull
| JBool (b : bool)
| JNum (n : Z)
| JStr (s : string)
| JArr (l : list JsValue)
| JObj (o : gmap string JsValue).

(** [o.k] on an object. *)
Definition get (o : gmap string JsValue) (k : string) : JsValue :=
  default JUndefined (o !! k).

(** [typeof v]. *)
Definition typeof (v : JsValue) : string :=
  match v with
  | JUndefined => "undefined"
  | JNull => "object"
  | JBool _ => "boolean"
  | JNum _ => "number"
  | JStr _ => "string"
  | JArr _ => "object"
  | JObj _ => "object"
  end.

(** [ToBoolean v]: what [!v] and [v || w] test. *)
Definition truthy (v : JsValue) : bool :=
  match v with
  | JUndefined => false
  | JNull => false
  | JBool b => b
  | JNum n => negb (n =? 0)
  | JStr s => negb (String.eqb s "")
  | JArr _ => true
  | JObj _ => true
  end.

(** [v || w]. *)
Definition js_or (v w : JsValue) : JsValue := if truthy v then v else w.

(** ** Exceptions *)

(** A computation that returns or throws an [Error] with a [message]. *)
Inductive Result (A : Type) : Type :=
| Ok (a : A)
| Err (message : string).
Arguments Ok {A} a.
Arguments Err {A} message.

#[export] Instance Result_ret : MRet Result := λ A a, Ok a.
#[export] Instance Result_bind : MBind Result := λ A B f m,
  match m with
  | Ok a => f a
  | Err e => Err e
  end.

(** ** Documents *)

(** The value at a schema path declared [String]: unset, [null] or a
    string.  Neither schema declares a default, a [required] flag or
    timestamps. *)
Inductive SField : Type :=
| FAbsent
| FNull
| FStr (s : string).

#[export] Instance SField_eq_dec : EqDecision SField.
Proof. solve_decision. Defined.

Definition SField_value (f : SField) : JsValue :=
  match f with
  | FAbsent => JUndefined
  | FNull => JNull
  | FStr s => JStr s
  end.

(** An ObjectId, by its hexadecimal string (what [toJSON] and
    [jwt.sign] write for it). *)
Abbreviation ObjectId := string (only parsing).

(** Writes a path into the JSON rendering of a document; an unset path is
    left out. *)
Definition put_path (k : string) (f : SField) (o : gmap string JsValue)
  : gmap string JsValue :=
  match f with
  | FAbsent => o
  | FNull => <[k := JNull]> o
  | FStr s => <[k := JStr s]> o
  end.

(** ** The libraries *)

(** bcryptjs: the key derivation and its check are the library's;
    [hash] and [compare] are its entry points with the argument checks they
    make first. *)
Module bcrypt.

Class Lib : Type := {
  hashSync : string → Z → string → string;
  compareSync : string → string → bool;
  compareSync_hashSync : ∀ s rounds salt,
    compareSync s (hashSync s rounds salt) = true
}.

(** [bcrypt.hash(s, rounds)] with the salt [genSalt(rounds)] drew. *)
Definition hash `{!Lib} (s : JsValue) (rounds : Z) (salt : string)
  : Result string :=
  match s with
  | JStr p => Ok (hashSync p rounds salt)
  | _ => Err ("Illegal arguments: " +:+ typeof s +:+ ", number")
  end.

(** [bcrypt.compare(s, hash)]. *)
Definition compare `{!Lib} (s hash : JsValue) : Result bool :=
  match s, hash with
  | JStr p, JStr h => Ok (compareSync p h)
  | _, _ => Err ("Illegal arguments: " +:+ typeof s +:+ ", " +:+ typeof hash)
  end.

End bcrypt.

(** What [post_login] signs, [{ userId: user._id, username: user.username }],
    and what a verified token yields for [req.user]: the payload with the
    times of issue and expiry. *)
Module Payload.
Record t : Type := { userId : ObjectId; username : SField }.
End Payload.

Module Claims.
Record t : Type := { userId : string; username : SField; iat : Z; exp : Z }.
End Claims.

(** jsonwebtoken: [sign payload secret expiresIn] and [verify token secret],
    each at the time of the call.  A token signed with a non-empty secret
    for one hour verifies, within that hour and under the same secret, to
    claims that carry the payload's [userId]. *)
Module jwt.

Class Lib : Type := {
  sign : Payload.t → string → string → Z → Result string;
  verify : string → string → Z → Result Claims.t;
  sign_ok : ∀ p secret now,
    secret ≠ "" → ∃ token, sign p secret "1h" now = Ok token;
  verify_sign : ∀ p secret now token now',
    sign p secret "1h" now = Ok token →
    now ≤ now' < now + 3600 →
    ∃ c, verify token secret now' = Ok c
         ∧ Claims.userId c = Payload.userId p
}.

End jwt.

(** Mongoose's casts: of a route parameter to an ObjectId ([findById]), of a
    value set on a [String] path, and of a value in a query filter on a
    [String] path (the cast yields the test a stored value must pass).  A
    failed cast is a [CastError].  Strings are kept as they are;
    [undefined] leaves the path unset and [null] is stored as [null]. *)
Class Mongoose : Type := {
  castObjectId : string → Result ObjectId;
  castString : JsValue → Result SField;
  castFilter : JsValue → Result (SField → bool);
  castString_string : ∀ s, castString (JStr s) = Ok (FStr s);
  castString_undefined : castString JUndefined = Ok FAbsent;
  castString_null : castString JNull = Ok FNull;
  castFilter_string : ∀ s,
    castFilter (JStr s) = Ok (λ f, bool_decide (f = FStr s))
}.

(** ** The environment of one request *)

Record Env : Type := {
  JWT_SECRET : string;          (* process.env.JWT_SECRET *)
  now : Z;                      (* the clock, in seconds *)
  store_fault : option string;  (* the store rejects this request's
                                   operations with this message *)
  new_ObjectId : ObjectId;      (* the id drawn for a new document *)
  genSalt : string              (* the salt bcrypt.genSalt draws *)
}.

(** Every store operation fails when the store cannot be reached. *)
Definition store_ready (env : Env) : Result unit :=
  match store_fault env with
  | Some m => Err m
  | None => Ok ()
  end.

(** ** The models *)

(** [UserSchema] and [mongoose.model("User", UserSchema)].  A collection is
    the list of its documents in the order they were inserted. *)
Module User.

Record doc : Type := {
  _id : ObjectId;
  username : SField;
  email : SField;
  password : SField;
  __v : Z
}.

Section Model.
Context `{!Mongoose}.

(** [new User({ username, email, password })]: each path is cast.  The
    constructor does not throw: a failed cast is kept in the document, and
    [save] throws it as the validation error.  So the value built is the
    document or the error it holds. *)
Definition new (id : ObjectId) (username email password : JsValue)
  : Result doc :=
  u ← castString username;
  e ← castString email;
  p ← castString password;
  mret {| _id := id; username := u; email := e; password := p; __v := 0 |}.

(** [user.save()] of a new document: validation, then an insert; the
    store refuses an [_id] it already holds. *)
Definition save (env : Env) (user : Result doc) (coll : list doc)
  : Result (doc * list doc) :=
  d ← user;
  _ ← store_ready env;
  match list_find (λ x, _id x = _id d) coll with
  | Some _ => Err "E11000 duplicate key error"
  | None => Ok (d, coll ++ [d])
  end.

(** [User.findOne({ email })]: the first document that passes the filter. *)
Definition findOne (env : Env) (email_filter : JsValue) (coll : list doc)
  : Result (option doc) :=
  test ← castFilter email_filter;
  _ ← store_ready env;
  mret (List.find (λ x, test (email x)) coll).

End Model.
End User.

(** [ProjectSchema] and [mongoose.model("Project", ProjectSchema)]. *)
Module Project.

Record doc : Type := {
  _id : ObjectId;
  name : SField;
  userId : SField;
  htmlCode : SField;
  cssCode : SField;
  jsCode : SField;
  __v : Z
}.

(** The schema has no [createdAt] path (it sets no [timestamps] option), so
    no document carries one. *)
Definition createdAt (d : doc) : option Z := None.

(** [res.json(project)] writes the document's paths that are set. *)
Definition toJSON (d : doc) : JsValue :=
  JObj (put_path "name" (name d)
       (put_path "userId" (userId d)
       (put_path "htmlCode" (htmlCode d)
       (put_path "cssCode" (cssCode d)
       (put_path "jsCode" (jsCode d)
       (<["_id" := JStr (_id d)]> {[ "__v" := JNum (__v d) ]})))))).

(** The order [sort({ key: -1 })] sorts by: a document without the key
    (compared as [null]) goes below every number. *)
Definition key_lt (a b : option Z) : bool :=
  match a, b with
  | None, Some _ => true
  | Some x, Some y => x <? y
  | _, None => false
  end.

Fixpoint insert_desc (key : doc → option Z) (x : doc) (l : list doc)
  : list doc :=
  match l with
  | [] => [x]
  | y :: l' =>
      if key_lt (key x) (key y) then y :: insert_desc key x l'
      else x :: l
  end.

(** [.sort({ key: -1 })]: descending; documents with equal keys keep the
    order the collection scan found them in. *)
Definition sort_desc (key : doc → option Z) (l : list doc) : list doc :=
  foldr (insert_desc key) [] l.

Section Model.
Context `{!Mongoose}.

(** [Project.find({ userId })]: the documents that pass the filter, in the
    order of the collection. *)
Definition find (env : Env) (userId_filter : JsValue) (coll : list doc)
  : Result (list doc) :=
  test ← castFilter userId_filter;
  _ ← store_ready env;
  mret (List.filter (λ x, test (userId x)) coll).

(** [Project.findById(id)]. *)
Definition findById (env : Env) (id : string) (coll : list doc)
  : Result (option doc) :=
  oid ← castObjectId id;
  _ ← store_ready env;
  mret (snd <$> list_find (λ x, _id x = oid) coll).

(** [Project.findByIdAndDelete(id)]: the document found, removed from the
    collection. *)
Definition findByIdAndDelete (env : Env) (id : string) (coll : list doc)
  : Result (option doc * list doc) :=
  oid ← castObjectId id;
  _ ← store_ready env;
  mret (match list_find (λ x, _id x = oid) coll with
        | Some (i, d) => (Some d, delete i coll)
        | None => (None, coll)
        end).

(** [new Project({ name, userId, htmlCode, cssCode, jsCode })]: the
    document, or the cast error it holds until [save]. *)
Definition new (id : ObjectId) (name userId htmlCode cssCode jsCode : JsValue)
  : Result doc :=
  n ← castString name;
  u ← castString userId;
  h ← castString htmlCode;
  c ← castString cssCode;
  j ← castString jsCode;
  mret {| _id := id; name := n; userId := u; htmlCode := h; cssCode := c;
          jsCode := j; __v := 0 |}.

(** [project.htmlCode = h; project.cssCode = c; project.jsCode = j] on a
    document read from the store: the three paths are cast and set, the
    others stay; a failed cast is held until [save]. *)
Definition set_code (d : doc) (htmlCode cssCode jsCode : JsValue)
  : Result doc :=
  h ← castString htmlCode;
  c ← castString cssCode;
  j ← castString jsCode;
  mret {| _id := _id d; name := name d; userId := userId d; htmlCode := h;
          cssCode := c; jsCode := j; __v := __v d |}.

End Model.

(** [newProject.save()] of a new document: validation (the cast error the
    document holds is thrown), then an insert; the store refuses an [_id]
    it already holds. *)
Definition save_new (env : Env) (project : Result doc) (coll : list doc)
  : Result (doc * list doc) :=
  d ← project;
  _ ← store_ready env;
  match list_find (λ x, _id x = _id d) coll with
  | Some _ => Err "E11000 duplicate key error"
  | None => Ok (d, coll ++ [d])
  end.

(** [project.save()] of a document read from the store: validation, then
    the stored document with its [_id] is overwritten. *)
Definition save (env : Env) (project : Result doc) (coll : list doc)
  : Result (doc * list doc) :=
  d ← project;
  _ ← store_ready env;
  match list_find (λ x, _id x = _id d) coll with
  | Some (i, _) => Ok (d, <[i := d]> coll)
  | None => Err "No document found for query"
  end.

End Project.

(** The database: the two collections. *)
Record Db : Type := {
  users : list User.doc;
  projects : list Project.doc
}.

(** ** Requests and responses *)

Record Params : Type := { projectId : string }.

(** [req]: the headers (Node keeps their names in lower case), the route
    parameters, the body [express.json()] parsed, and [req.user], which
    [authenticateToken] sets. *)
Record Request : Type := {
  headers : gmap string string;
  params : Params;
  body : gmap string JsValue;
  user : option Claims.t
}.

Definition ascii_lower (c : Ascii.ascii) : Ascii.ascii :=
  let n := Ascii.N_of_ascii c in
  if ((65 <=? n) && (n <=? 90))%N then Ascii.ascii_of_N (n + 32) else c.

Fixpoint lower (s : string) : string :=
  match s with
  | EmptyString => EmptyString
  | String c s' => String (ascii_lower c) (lower s')
  end.

(** [req.header(name)]. *)
Definition header (req : Request) (name : string) : option string :=
  headers req !! lower name.

(** [req.user = user]. *)
Definition set_user (req : Request) (u : Claims.t) : Request :=
  {| headers := headers req; params := params req; body := body req;
     user := Some u |}.

(** [req.user.userId]; the read throws when [req.user] is not set. *)
Definition user_userId (req : Request) : Result string :=
  match user req with
  | Some u => Ok (Claims.userId u)
  | None => Err "Cannot read properties of undefined (reading 'userId')"
  end.

Inductive Sent : Type :=
| json (v : JsValue)
| text (s : string).

Record Response : Type := { statusCode : Z; sent : Sent }.

(** [res.status(code).json(v)]. *)
Definition status_json (code : Z) (v : JsValue) : Response :=
  {| statusCode := code; sent := json v |}.

(** [res.sendStatus(code)]: the body is the reason phrase of the code
    (of the two codes the server sends this way), else the code in
    decimal. *)
Definition sendStatus (code : Z) : Response :=
  {| statusCode := code;
     sent := text (if code =? 401 then "Unauthorized"
                   else if code =? 403 then "Forbidden"
                   else pretty code) |}.

Definition message (m : string) : JsValue := JObj {[ "message" := JStr m ]}.
Definition error (m : string) : JsValue := JObj {[ "error" := JStr m ]}.

Definition with_users (db : Db) (us : list User.doc) : Db :=
  {| users := us; projects := projects db |}.
Definition with_projects (db : Db) (ps : list Project.doc) : Db :=
  {| users := users db; projects := ps |}.

Definition Handler : Type := Env → Request → Db → Response * Db.

(** ** The middleware and the route handlers *)

Section Server.
Context {B : bcrypt.Lib} {J : jwt.Lib} {M : Mongoose}.

(** [app.post("/register", ...)]. *)
Definition post_register : Handler := λ env req db,
  match
    hashedPassword ← bcrypt.hash (get (body req) "password") 10 (genSalt env);
    let user := User.new (new_ObjectId env)
                         (get (body req) "username")
                         (get (body req) "email")
                         (JStr hashedPassword) in
    User.save env user (users db)
  with
  | Ok (_, users') =>
      (status_json 201 (message "User registered successfully"),
       with_users db users')
  | Err m => (status_json 400 (error m), db)
  end.

(** [app.post("/login", ...)]. *)
Definition post_login : Handler := λ env req db,
  match
    user ← User.findOne env (get (body req) "email") (users db);
    match user with
    | None => mret (status_json 404 (error "User not found"))
    | Some user =>
        isMatch ← bcrypt.compare (get (body req) "password")
                                 (SField_value (User.password user));
        if negb isMatch then
          mret (status_json 401 (error "Invalid credentials"))
        else
          token ← jwt.sign {| Payload.userId := User._id user;
                              Payload.username := User.username user |}
                           (JWT_SECRET env) "1h" (now env);
          mret (status_json 200 (JObj {[ "token" := JStr token ]}))
    end
  with
  | Ok res => (res, db)
  | Err m => (status_json 400 (error m), db)
  end.

(** [app.get("/protected", authenticateToken, ...)]. *)
Definition get_protected : Handler := λ env req db,
  (status_json 200 (message "Access granted!"), db).

(** [authenticateToken(req, res, next)]. *)
Definition authenticateToken (next : Handler) : Handler := λ env req db,
  let authHeader := header req "Authorization" in
  let token := authHeader in
  match token with
  | None => (sendStatus 401, db)
  | Some token =>
      match jwt.verify token (JWT_SECRET env) (now env) with
      | Err _ => (sendStatus 403, db)
      | Ok user => next env (set_user req user) db
      end
  end.

(** [app.get("/projects", authenticateToken, ...)]. *)
Definition get_projects : Handler := λ env req db,
  match
    userId ← user_userId req;
    found ← Project.find env (JStr userId) (projects db);
    mret (Project.sort_desc Project.createdAt found)
  with
  | Ok projects => (status_json 200 (JArr (Project.toJSON <$> projects)), db)
  | Err m => (status_json 500 (error m), db)
  end.

(** [app.get("/project/:projectId", authenticateToken, ...)]. *)
Definition get_project : Handler := λ env req db,
  match Project.findById env (projectId (params req)) (projects db) with
  | Ok project =>
      (status_json 200 (from_option Project.toJSON JNull project), db)
  | Err m => (status_json 500 (error m), db)
  end.

(** [app.delete("/project/:projectId", authenticateToken, ...)]. *)
Definition delete_project : Handler := λ env req db,
  match
    Project.findByIdAndDelete env (projectId (params req)) (projects db)
  with
  | Ok (None, _) => (status_json 404 (message "Project not found"), db)
  | Ok (Some _, projects') =>
      (status_json 200 (message "Project deleted successfully"),
       with_projects db projects')
  | Err m => (status_json 500 (error m), db)
  end.

(** [app.post("/project", authenticateToken, ...)]. *)
Definition post_project : Handler := λ env req db,
  match
    userId ← user_userId req;
    let newProject := Project.new (new_ObjectId env)
                                  (get (body req) "name")
                                  (JStr userId)
                                  (get (body req) "htmlCode")
                                  (get (body req) "cssCode")
                                  (get (body req) "jsCode") in
    Project.save_new env newProject (projects db)
  with
  | Ok (newProject, projects') =>
      (status_json 201 (Project.toJSON newProject),
       with_projects db projects')
  | Err m => (status_json 400 (error m), db)
  end.

(** [app.put("/project/:projectId", authenticateToken, ...)]. *)
Definition put_project : Handler := λ env req db,
  let htmlCode := get (body req) "htmlCode" in
  let cssCode := get (body req) "cssCode" in
  let jsCode := get (body req) "jsCode" in
  match
    project ← Project.findById env (projectId (params req)) (projects db);
    match project with
    | None => mret (status_json 404 (error "Project not found"), db)
    | Some project =>
        let project := Project.set_code project
                                        (js_or htmlCode (JStr ""))
                                        (js_or cssCode (JStr ""))
                                        (js_or jsCode (JStr "")) in
        saved ← Project.save env project (projects db);
        mret (status_json 200 (Project.toJSON saved.1),
              with_projects db saved.2)
    end
  with
  | Ok out => out
  | Err _ => (status_json 500 (error "Failed to save project code"), db)
  end.

(** The routes [app] registers. *)
Inductive Route : Type :=
| POST_register
| POST_login
| GET_protected
| GET_projects
| GET_project
| DELETE_project
| POST_project
| PUT_project.

Definition app (r : Route) : Handler :=
  match r with
  | POST_register => post_register
  | POST_login => post_login
  | GET_protected => authenticateToken get_protected
  | GET_projects => authenticateToken get_projects
  | GET_project => authenticateToken get_project
  | DELETE_project => authenticateToken delete_project
  | POST_project => authenticateToken post_project
  | PUT_project => authenticateToken put_project
  end.

(** *** Vocabulary of the statements *)

(** The request carries a token that verifies, to the claims [u]. *)
Definition authenticated (env : Env) (req : Request) (u : Claims.t) : Prop :=
  ∃ token, header req "Authorization" = Some token
           ∧ jwt.verify token (JWT_SECRET env) (now env) = Ok u.

(** The document [put_project] builds from the stored [d]: the three code
    paths set from the body, as in the handler. *)
Definition new_code (req : Request) (d : Project.doc) : Result Project.doc :=
  Project.set_code d (js_or (get (body req) "htmlCode") (JStr ""))
                     (js_or (get (body req) "cssCode") (JStr ""))
                     (js_or (get (body req) "jsCode") (JStr "")).

(** [req] with the body [b] in place of its own. *)
Definition with_body (req : Request) (b : gmap string JsValue) : Request :=
  {| headers := headers req; params := params req; body := b;
     user := user req |}.

(** The ids of a collection are pairwise different, as the store's unique
    index on [_id] keeps them. *)
Definition unique_ids (coll : list Project.doc) : Prop :=
  NoDup (Project._id <$> coll).

End Server.

(** ** A reference instance of the libraries

    The smallest functions with the interfaces' laws: digests in the clear,
    tokens that spell their [userId], casts of strings, [null] and
    [undefined] only.  It shows the interfaces are inhabited and runs the
    handlers on concrete requests. *)
Module Ref.

Definition bcrypt : bcrypt.Lib.
Proof.
  refine {| bcrypt.hashSync := λ s _ _, s;
            bcrypt.compareSync := String.eqb |}.
  intros s _ _. apply String.eqb_refl.
Defined.

Fixpoint strip_prefix (p s : string) : option string :=
  match p, s with
  | EmptyString, _ => Some s
  | String a p', String b s' =>
      if Ascii.eqb a b then strip_prefix p' s' else None
  | _, _ => None
  end.

Definition verify (token : string) : Result Claims.t :=
  match strip_prefix "jwt." token with
  | Some uid =>
      Ok {| Claims.userId := uid; Claims.username := FAbsent;
            Claims.iat := 0; Claims.exp := 3600 |}
  | None => Err "jwt malformed"
  end.

Definition jwt : jwt.Lib.
Proof.
  refine {| jwt.sign := λ p secret _ _,
              if decide (secret = "") then
                Err "secretOrPrivateKey must have a value"
              else Ok ("jwt." +:+ Payload.userId p);
            jwt.verify := λ token _ _, verify token |}.
  - intros p secret _ Hs. exists ("jwt." +:+ Payload.userId p).
    by destruct (decide (secret = "")).
  - intros p secret t token t' Hsign _. exists
      {| Claims.userId := Payload.userId p; Claims.username := FAbsent;
         Claims.iat := 0; Claims.exp := 3600 |}.
    destruct (decide (secret = "")); [discriminate|].
    injection Hsign as <-. done.
Defined.

Definition mongoose : Mongoose.
Proof.
  refine {| castObjectId := λ s,
              if decide (String.length s = 24%nat) then Ok s
              else Err "Cast to ObjectId failed";
            castString := λ v,
              match v with
              | JUndefined => Ok FAbsent
              | JNull => Ok FNull
              | JStr s => Ok (FStr s)
              | _ => Err "Cast to string failed"
              end;
            castFilter := λ v,
              match v with
              | JStr s => Ok (λ f, bool_decide (f = FStr s))
              | _ => Err "Cast to string failed"
              end |}; done.
Defined.

End Ref.

(** ** Sample data *)

(** Two users, their tokens under the reference instance, and a store the
    handlers run on in the concrete statements below. *)
Module Sample.

Definition alice : ObjectId := "64b000000000000000000001".
Definition bob : ObjectId := "64b000000000000000000002".
Definition site : ObjectId := "64b0000000000000000000a1".
Definition blog : ObjectId := "64b0000000000000000000a2".
Definition nobody : ObjectId := "64b0000000000000000000ff".

Definition env (id : ObjectId) : Env :=
  {| JWT_SECRET := "s3cret"; now := 1000; store_fault := None;
     new_ObjectId := id; genSalt := "salt" |}.

Definition empty : Db := {| users := []; projects := [] |}.

(** A request with the [Authorization] header [auth]. *)
Definition request (auth : option string) (id : string)
  (b : gmap string JsValue) : Request :=
  {| headers := from_option (λ t, {[ "authorization" := t ]}) ∅ auth;
     params := {| projectId := id |};
     body := b;
     user := None |}.

Definition token (uid : ObjectId) : option string := Some ("jwt." +:+ uid).

(** The claims the reference [verify] reads from [token uid]. *)
Definition claims (uid : ObjectId) : Claims.t :=
  {| Claims.userId := uid; Claims.username := FAbsent;
     Claims.iat := 0; Claims.exp := 3600 |}.

Definition site_doc : Project.doc :=
  {| Project._id := site; Project.name := FStr "Site";
     Project.userId := FStr alice; Project.htmlCode := FStr "<h1>x</h1>";
     Project.cssCode := FStr "h1 {}"; Project.jsCode := FStr "x()";
     Project.__v := 0 |}.

Definition db : Db := {| users := []; projects := [site_doc] |}.

(** An environment in which the store is down. *)
Definition down : Env :=
  {| JWT_SECRET := "s3cret"; now := 1000;
     store_fault := Some "connection refused";
     new_ObjectId := nobody; genSalt := "salt" |}.

(** Two accounts under one email; the reference digest of a password is the
    password. *)
Definition ann : User.doc :=
  {| User._id := alice; User.username := FStr "ann";
     User.email := FStr "ann@example.org"; User.password := FStr "pw";
     User.__v := 0 |}.

Definition ann_again : User.doc :=
  {| User._id := bob; User.username := FStr "ann2";
     User.email := FStr "ann@example.org"; User.password := FStr "other";
     User.__v := 0 |}.

Definition accounts : Db := {| users := [ann; ann_again]; projects := [] |}.

(** A store with a project of each user. *)
Definition blog_doc : Project.doc :=
  {| Project._id := blog; Project.name := FStr "Blog";
     Project.userId := FStr bob; Project.htmlCode := FStr "<h2>b</h2>";
     Project.cssCode := FStr "h2 {}"; Project.jsCode := FAbsent;
     Project.__v := 0 |}.

Definition two_projects : Db :=
  {| users := [ann]; projects := [site_doc; blog_doc] |}.

(** A login request. *)
Definition login (email password : string) : Request :=
  request None "" {[ "email" := JStr email; "password" := JStr password ]}.

End Sample.

(** ** Properties *)

Section Properties.
Context {B : bcrypt.Lib} {J : jwt.Lib} {M : Mongoose}.

Implicit Types (env : Env) (req : Request) (db : Db) (next : Handler).

(** *** The sort *)

(** [sort_desc] sorts: its result is a rearrangement of the list in which
    no document stands before one with a greater key. *)
Lemma insert_desc_Permutation key (x : Project.doc) l :
  Project.insert_desc key x l ≡ₚ x :: l.
Proof.
  induction l as [|y l IH]; [done|]. simpl.
  destruct (Project.key_lt (key x) (key y)); [|done].
  rewrite IH. apply Permutation_swap.
Qed.

Lemma sort_desc_Permutation key (l : list Project.doc) :
  Project.sort_desc key l ≡ₚ l.
Proof.
  induction l as [|x l IH]; [done|]. unfold Project.sort_desc in *. simpl.
  by rewrite insert_desc_Permutation, IH.
Qed.

Lemma key_lt_asym (a b : option Z) :
  Project.key_lt a b = true → Project.key_lt b a = false.
Proof.
  destruct a as [x|], b as [y|]; simpl; try done.
  intros ?%Z.ltb_lt. apply Z.ltb_ge. lia.
Qed.

Lemma insert_desc_Sorted key (x : Project.doc) l :
  Sorted (λ a b, Project.key_lt (key a) (key b) = false) l →
  Sorted (λ a b, Project.key_lt (key a) (key b) = false)
         (Project.insert_desc key x l).
Proof.
  induction 1 as [|y l Hl IH Hhd]; simpl.
  - by repeat constructor.
  - destruct (Project.key_lt (key x) (key y)) eqn:Hxy.
    + constructor; [done|]. destruct Hhd as [|z l Hyz]; simpl.
      * constructor. by apply key_lt_asym.
      * destruct (Project.key_lt (key x) (key z)); constructor;
          [done|by apply key_lt_asym].
    + by repeat constructor.
Qed.

Lemma sort_desc_Sorted key (l : list Project.doc) :
  Sorted (λ a b, Project.key_lt (key a) (key b) = false)
         (Project.sort_desc key l).
Proof.
  induction l as [|x l IH]; [constructor|].
  unfold Project.sort_desc in *. simpl. by apply insert_desc_Sorted.
Qed.

(** No document has a [createdAt], so sorting by it moves nothing. *)
Lemma sort_desc_createdAt (l : list Project.doc) :
  Project.sort_desc Project.createdAt l = l.
Proof.
  induction l as [|d l IH]; [done|].
  unfold Project.sort_desc in *. simpl. rewrite IH. by destruct l.
Qed.

(** The filter of a list by a decided property, as the Standard Library
    and as stdpp write it. *)
Lemma filter_bool_decide {A} (P : A → Prop) `{!∀ x, Decision (P x)}
    (l : list A) :
  List.filter (λ x, bool_decide (P x)) l = filter P l.
Proof.
  induction l as [|x l IH]; [done|]. simpl. rewrite IH.
  rewrite filter_cons. destruct (decide (P x)).
  - by rewrite bool_decide_eq_true_2.
  - by rewrite bool_decide_eq_false_2.
Qed.

(** What the middleware does with a request whose token verifies. *)
Lemma authenticateToken_accepts next env req db u :
  authenticated env req u →
  authenticateToken next env req db = next env (set_user req u) db.
Proof. intros (token & Hh & Hv). unfold authenticateToken. by rewrite Hh, Hv. Qed.

(** [findById] finds a document exactly when the id casts, the store
    answers and the scan meets the document first under that id. *)
Lemma findById_Some env id coll d :
  Project.findById env id coll = Ok (Some d) ↔
  ∃ oid i, castObjectId id = Ok oid ∧ store_fault env = None
           ∧ list_find (λ x, Project._id x = oid) coll = Some (i, d).
Proof.
  unfold Project.findById, store_ready.
  destruct (castObjectId id) as [oid|m]; simpl; [|naive_solver].
  destruct (store_fault env); simpl; [naive_solver|].
  unfold mret, Result_ret.
  destruct (list_find _ coll) as [[i d']|] eqn:Hf; simpl; naive_solver.
Qed.

Lemma findById_None env id coll :
  Project.findById env id coll = Ok None ↔
  ∃ oid, castObjectId id = Ok oid ∧ store_fault env = None
         ∧ Forall (λ x, Project._id x ≠ oid) coll.
Proof.
  unfold Project.findById, store_ready.
  destruct (castObjectId id) as [oid|m]; simpl; [|naive_solver].
  destruct (store_fault env); simpl; [naive_solver|].
  unfold mret, Result_ret.
  destruct (list_find _ coll) as [[i d']|] eqn:Hf; simpl.
  - split; [done|]. intros (? & [= <-] & _ & Hall).
    apply list_find_Some in Hf as (Hd%list_elem_of_lookup_2 & Hid & _).
    by apply (proj1 (Forall_forall _ _) Hall) in Hd.
  - apply list_find_None in Hf. naive_solver.
Qed.

(** C7: the middleware passes the [Authorization] header to [jwt.verify] as
    it is (no ["Bearer "] prefix is removed).  Without the header the
    response is 401; when verification of the header fails, for whatever
    reason (signature, malformed, expired), it is 403; in both cases the
    outcome does not depend on the route handler [next], which is not run,
    and the database is untouched.  Otherwise the handler runs with the
    claims in [req.user]. *)
Theorem authenticateToken_rejects next env req db :
  (header req "Authorization" = None →
   authenticateToken next env req db
   = ({| statusCode := 401; sent := text "Unauthorized" |}, db))
  ∧ (∀ token m,
       header req "Authorization" = Some token →
       jwt.verify token (JWT_SECRET env) (now env) = Err m →
       authenticateToken next env req db
       = ({| statusCode := 403; sent := text "Forbidden" |}, db))
  ∧ (∀ token u,
       header req "Authorization" = Some token →
       jwt.verify token (JWT_SECRET env) (now env) = Ok u →
       authenticateToken next env req db = next env (set_user req u) db).
Proof.
  split_and!.
  - intros Hh. unfold authenticateToken. by rewrite Hh.
  - intros token m Hh Hv. unfold authenticateToken. by rewrite Hh, Hv.
  - intros token u Hh Hv. apply authenticateToken_accepts. by exists token.
Qed.

(** *** Routes on one project *)

Lemma set_code_Ok (d d' : Project.doc) (h c j : JsValue) :
  Project.set_code d h c j = Ok d' ↔
  ∃ h' c' j', castString h = Ok h' ∧ castString c = Ok c'
    ∧ castString j = Ok j'
    ∧ d' = {| Project._id := Project._id d; Project.name := Project.name d;
              Project.userId := Project.userId d; Project.htmlCode := h';
              Project.cssCode := c'; Project.jsCode := j';
              Project.__v := Project.__v d |}.
Proof.
  unfold Project.set_code.
  destruct (castString h) as [h'|]; simpl; [|naive_solver].
  destruct (castString c) as [c'|]; simpl; [|naive_solver].
  destruct (castString j) as [j'|]; simpl; [|naive_solver].
  unfold mret, Result_ret. naive_solver.
Qed.

Lemma set_code_id (d d' : Project.doc) (h c j : JsValue) :
  Project.set_code d h c j = Ok d' → Project._id d' = Project._id d.
Proof. intros (? & ? & ? & _ & _ & _ & ->)%set_code_Ok. done. Qed.

(** [put_project] on a project the store holds. *)
Lemma put_project_found env req db oid i d :
  castObjectId (projectId (params req)) = Ok oid →
  store_fault env = None →
  list_find (λ x, Project._id x = oid) (projects db) = Some (i, d) →
  put_project env req db =
  match new_code req d with
  | Ok d' => (status_json 200 (Project.toJSON d'),
              with_projects db (<[i := d']> (projects db)))
  | Err _ => (status_json 500 (error "Failed to save project code"), db)
  end.
Proof.
  intros Hc Hs Hf. unfold put_project, Project.findById, store_ready.
  rewrite Hc, Hs. simpl. rewrite Hf. simpl. fold (new_code req d).
  destruct (new_code req d) as [d'|m] eqn:Hd; simpl; [|done].
  unfold Project.save, store_ready. rewrite Hs. simpl.
  apply set_code_id in Hd as Hid.
  apply list_find_Some in Hf as Hf'. destruct Hf' as (_ & Hoid & _).
  rewrite Hid, Hoid, Hf. done.
Qed.

(** A 200 from [put_project] means all of it happened. *)
Lemma put_project_200 env req db :
  statusCode (put_project env req db).1 = 200 →
  ∃ oid i d d',
    castObjectId (projectId (params req)) = Ok oid
    ∧ store_fault env = None
    ∧ list_find (λ x, Project._id x = oid) (projects db) = Some (i, d)
    ∧ new_code req d = Ok d'
    ∧ put_project env req db
      = (status_json 200 (Project.toJSON d'),
         with_projects db (<[i := d']> (projects db))).
Proof.
  destruct (castObjectId (projectId (params req))) as [oid|m] eqn:Hc.
  2: { unfold put_project, Project.findById. rewrite Hc. done. }
  destruct (store_fault env) as [m|] eqn:Hs.
  { unfold put_project, Project.findById, store_ready. rewrite Hc, Hs. done. }
  destruct (list_find (λ x, Project._id x = oid) (projects db))
    as [[i d]|] eqn:Hf.
  2: { unfold put_project, Project.findById, store_ready.
       rewrite Hc, Hs. simpl. rewrite Hf. done. }
  rewrite (put_project_found _ _ _ _ _ _ Hc Hs Hf).
  destruct (new_code req d) as [d'|m] eqn:Hd; [|done].
  intros _. by exists oid, i, d, d'.
Qed.

(** [delete_project] on a project the store holds. *)
Lemma delete_project_found env req db oid i d :
  castObjectId (projectId (params req)) = Ok oid →
  store_fault env = None →
  list_find (λ x, Project._id x = oid) (projects db) = Some (i, d) →
  delete_project env req db
  = (status_json 200 (message "Project deleted successfully"),
     with_projects db (delete i (projects db))).
Proof.
  intros Hc Hs Hf.
  unfold delete_project, Project.findByIdAndDelete, store_ready.
  rewrite Hc, Hs. simpl. by rewrite Hf.
Qed.

(** C1: [get], [update] and [delete] on [/project/:projectId] make no
    ownership check.  Two authenticated requests with the same route
    parameter and body get the same outcome (response and database),
    whoever their tokens name; and a project the store holds under the id is
    returned by GET, removed by DELETE and overwritten by PUT, with no
    condition relating the caller's [userId] to the project's. *)
Theorem project_by_id_ignores_caller env db (r1 r2 : Request) u1 u2 :
  params r1 = params r2 →
  body r1 = body r2 →
  authenticated env r1 u1 →
  authenticated env r2 u2 →
  (app GET_project env r1 db = app GET_project env r2 db
   ∧ app PUT_project env r1 db = app PUT_project env r2 db
   ∧ app DELETE_project env r1 db = app DELETE_project env r2 db)
  ∧ ∀ d, Project.findById env (projectId (params r1)) (projects db)
         = Ok (Some d) →
      app GET_project env r1 db = (status_json 200 (Project.toJSON d), db)
      ∧ (∃ i, projects db !! i = Some d
              ∧ app DELETE_project env r1 db
                = (status_json 200 (message "Project deleted successfully"),
                   with_projects db (delete i (projects db))))
      ∧ (∀ d', new_code r1 d = Ok d' →
           ∃ i, projects db !! i = Some d
                ∧ app PUT_project env r1 db
                  = (status_json 200 (Project.toJSON d'),
                     with_projects db (<[i := d']> (projects db)))).
Proof.
  intros Hp Hb Ha1 Ha2. simpl.
  rewrite !(authenticateToken_accepts _ _ r1 _ u1) by done.
  rewrite !(authenticateToken_accepts _ _ r2 _ u2) by done.
  split.
  - unfold get_project, put_project, delete_project. simpl.
    by rewrite Hp, Hb.
  - intros d Hd. split_and!.
    + unfold get_project. simpl. by rewrite Hd.
    + apply findById_Some in Hd as (oid & i & Hc & Hs & Hf).
      exists i. split; [by apply list_find_Some in Hf as (? & _)|].
      by apply (delete_project_found _ _ _ oid i d).
    + intros d' Hd'.
      apply findById_Some in Hd as (oid & i & Hc & Hs & Hf).
      exists i. split; [by apply list_find_Some in Hf as (? & _)|].
      rewrite (put_project_found _ (set_user r1 u1) _ oid i d) by done.
      unfold new_code in *. simpl. by rewrite Hd'.
Qed.

(** Once the document found under an id is deleted, no document of a
    collection with unique ids carries that id. *)
Lemma delete_found_gone (coll : list Project.doc) oid i d :
  unique_ids coll →
  list_find (λ x, Project._id x = oid) coll = Some (i, d) →
  Forall (λ x, Project._id x ≠ oid) (delete i coll).
Proof.
  unfold unique_ids. intros Hnd (Hi & <- & _)%list_find_Some.
  rewrite <-(take_drop_middle coll i d Hi) in Hnd.
  rewrite fmap_app, fmap_cons in Hnd.
  apply NoDup_app in Hnd as (_ & Hl & (Hr & _)%NoDup_cons).
  rewrite delete_take_drop. apply Forall_app. split; apply Forall_forall.
  - intros x Hx Heq. apply (Hl (Project._id x)); [by apply list_elem_of_fmap_2|].
    rewrite Heq. left.
  - intros x Hx Heq. apply Hr. rewrite <-Heq. by apply list_elem_of_fmap_2.
Qed.

(** [get_project] never answers 404: its only statuses are 200 and 500. *)
Lemma get_project_status env req db :
  statusCode (get_project env req db).1 = 200
  ∨ statusCode (get_project env req db).1 = 500.
Proof. unfold get_project. destruct (Project.findById _ _ _); auto. Qed.

(** C2, as the code has it: GET [/project/:projectId] for a well-formed id
    the store does not hold answers 200 with the body [null], not 404; so
    does a GET that follows a successful DELETE of the id; and on no
    database does the GET answer anything but 200 or 500.  (DELETE and PUT
    test [!project] and answer 404; GET sends what [findById] returned.) *)
Theorem get_missing_project_is_200_null env req db u oid :
  authenticated env req u →
  castObjectId (projectId (params req)) = Ok oid →
  store_fault env = None →
  (Forall (λ x, Project._id x ≠ oid) (projects db) →
   app GET_project env req db = (status_json 200 JNull, db))
  ∧ (∀ res db',
       unique_ids (projects db) →
       app DELETE_project env req db = (res, db') →
       statusCode res = 200 →
       app GET_project env req db' = (status_json 200 JNull, db'))
  ∧ (∀ db0, statusCode (app GET_project env req db0).1 = 200
            ∨ statusCode (app GET_project env req db0).1 = 500).
Proof.
  intros Ha Hc Hs. simpl. rewrite !(authenticateToken_accepts _ _ _ _ u) by done.
  assert (∀ db0, Forall (λ x, Project._id x ≠ oid) (projects db0) →
                 get_project env (set_user req u) db0
                 = (status_json 200 JNull, db0)) as Hget.
  { intros db0 Hall. unfold get_project. simpl.
    rewrite (proj2 (findById_None env _ (projects db0))); [done|].
    by exists oid. }
  split_and!; [apply Hget| |].
  2: { intros db0. rewrite (authenticateToken_accepts _ _ _ _ u) by done.
       apply get_project_status. }
  intros res db' Hnd Hdel Hres.
  rewrite (authenticateToken_accepts _ _ _ _ u) by done.
  apply Hget.
  destruct (list_find (λ x, Project._id x = oid) (projects db))
    as [[i d]|] eqn:Hf.
  - rewrite (delete_project_found _ _ _ oid i d) in Hdel by done.
    injection Hdel as <- <-. simpl. by apply (delete_found_gone _ oid i d).
  - unfold delete_project, Project.findByIdAndDelete, store_ready in Hdel.
    simpl in Hdel. rewrite Hc, Hs in Hdel. simpl in Hdel. rewrite Hf in Hdel.
    injection Hdel as <- <-. done.
Qed.



(** C9: a successful PUT [/project/:projectId] overwrites one stored
    project, the first the collection holds under the id the route
    parameter casts to, and in it only [htmlCode], [cssCode] and [jsCode],
    which are set from the body: its [_id], [name], [userId] and [__v] are
    as before, every other project is as before and at its place, and the
    users are untouched.  A PUT that does not answer 200 changes nothing. *)
Theorem put_project_frame env req db u res db' :
  authenticated env req u →
  app PUT_project env req db = (res, db') →
  (statusCode res = 200 →
   users db' = users db
   ∧ ∃ i d d',
       projects db !! i = Some d
       ∧ castObjectId (projectId (params req)) = Ok (Project._id d)
       ∧ (∀ j x, (j < i)%nat → projects db !! j = Some x →
                 Project._id x ≠ Project._id d)
       ∧ new_code req d = Ok d'
       ∧ res = status_json 200 (Project.toJSON d')
       ∧ projects db' = <[i := d']> (projects db)
       ∧ projects db' !! i = Some d'
       ∧ Project._id d' = Project._id d
       ∧ Project.name d' = Project.name d
       ∧ Project.userId d' = Project.userId d
       ∧ Project.__v d' = Project.__v d
       ∧ length (projects db') = length (projects db)
       ∧ ∀ j, j ≠ i → projects db' !! j = projects db !! j)
  ∧ (statusCode res ≠ 200 → db' = db).
Proof.
  intros Ha. simpl. rewrite (authenticateToken_accepts _ _ _ _ u) by done.
  intros Hout. split.
  - intros Hres.
    destruct (put_project_200 env (set_user req u) db)
      as (oid & i & d & d' & Hc & Hs & Hf & Hd' & Hput).
    { by rewrite Hout. }
    rewrite Hout in Hput. injection Hput as -> ->. split; [done|].
    exists i, d, d'.
    apply set_code_Ok in Hd' as Hd''.
    destruct Hd'' as (h' & c' & j' & _ & _ & _ & Heq).
    apply list_find_Some in Hf as (Hi & <- & Hfirst). simpl in *.
    split_and!; try done.
    + intros j x Hj Hx. by apply (Hfirst j x).
    + apply list_lookup_insert_eq. by eapply lookup_lt_Some.
    + by rewrite Heq.
    + by rewrite Heq.
    + by rewrite Heq.
    + by rewrite Heq.
    + apply length_insert.
    + intros j Hj. by apply list_lookup_insert_ne.
  - intros Hres. unfold put_project in Hout.
    destruct (Project.findById _ _ _) as [[d|]|m]; simpl in Hout.
    + destruct (Project.save _ _ _) as [[d' ps]|m]; simpl in Hout;
        injection Hout as <- <-; done.
    + by injection Hout as <- <-.
    + by injection Hout as <- <-.
Qed.

(** *** Creating and listing projects *)

Lemma new_Ok id (n u h c j : JsValue) (d : Project.doc) :
  Project.new id n u h c j = Ok d ↔
  ∃ n' u' h' c' j', castString n = Ok n' ∧ castString u = Ok u'
    ∧ castString h = Ok h' ∧ castString c = Ok c' ∧ castString j = Ok j'
    ∧ d = {| Project._id := id; Project.name := n'; Project.userId := u';
             Project.htmlCode := h'; Project.cssCode := c';
             Project.jsCode := j'; Project.__v := 0 |}.
Proof.
  unfold Project.new.
  destruct (castString n) as [n'|]; simpl; [|naive_solver].
  destruct (castString u) as [u'|]; simpl; [|naive_solver].
  destruct (castString h) as [h'|]; simpl; [|naive_solver].
  destruct (castString c) as [c'|]; simpl; [|naive_solver].
  destruct (castString j) as [j'|]; simpl; [|naive_solver].
  unfold mret, Result_ret. naive_solver.
Qed.

Lemma save_new_Ok env (nd : Result Project.doc) coll d ps :
  Project.save_new env nd coll = Ok (d, ps) ↔
  nd = Ok d ∧ store_fault env = None
  ∧ Forall (λ x, Project._id x ≠ Project._id d) coll ∧ ps = coll ++ [d].
Proof.
  unfold Project.save_new, store_ready.
  destruct nd as [d0|m]; simpl; [|naive_solver].
  destruct (store_fault env); simpl; [naive_solver|].
  destruct (list_find _ coll) as [[i x]|] eqn:Hf.
  - split; [done|]. intros ([= ->] & _ & Hall & _).
    apply list_find_Some in Hf as (Hx%list_elem_of_lookup_2 & Hid & _).
    by apply (proj1 (Forall_forall _ _) Hall) in Hx.
  - apply list_find_None in Hf. split.
    + intros [= -> <-]. done.
    + intros ([= ->] & _ & _ & ->). done.
Qed.

(** A 201 from [post_project] means the document built from the request
    was inserted. *)
Lemma post_project_201 env req db res db' :
  post_project env req db = (res, db') →
  statusCode res = 201 →
  ∃ uid d,
    user_userId req = Ok uid
    ∧ Project.new (new_ObjectId env) (get (body req) "name") (JStr uid)
        (get (body req) "htmlCode") (get (body req) "cssCode")
        (get (body req) "jsCode") = Ok d
    ∧ res = status_json 201 (Project.toJSON d)
    ∧ db' = with_projects db (projects db ++ [d]).
Proof.
  unfold post_project. destruct (user_userId req) as [uid|m]; simpl.
  2: { by intros [= <- <-]. }
  destruct (Project.save_new _ _ _) as [[d ps]|m] eqn:Hsave.
  2: { by intros [= <- <-]. }
  intros [= <- <-] _. apply save_new_Ok in Hsave as (Hnew & _ & _ & ->).
  by exists uid, d.
Qed.

(** C5: POST [/project] by an authenticated caller, when the document
    validates (its four body values cast) and the insert succeeds (the
    store answers, the new id is free), answers 201 with the created
    project, and the projects afterwards are those before with the created
    one appended; its owner [userId] is the [userId] of the verified
    claims.  Whenever the answer is 201 the project appended has the
    caller's [userId].  No key of the body other than [name], [htmlCode],
    [cssCode], [jsCode] is read, a [userId] or [owner] key included:
    setting it changes nothing. *)
Theorem post_project_owner_is_caller env req db u :
  authenticated env req u →
  (∀ n h c j,
     castString (get (body req) "name") = Ok n →
     castString (get (body req) "htmlCode") = Ok h →
     castString (get (body req) "cssCode") = Ok c →
     castString (get (body req) "jsCode") = Ok j →
     store_fault env = None →
     Forall (λ x, Project._id x ≠ new_ObjectId env) (projects db) →
     (app POST_project env req db).1
     = status_json 201 (Project.toJSON
         {| Project._id := new_ObjectId env; Project.name := n;
            Project.userId := FStr (Claims.userId u);
            Project.htmlCode := h; Project.cssCode := c;
            Project.jsCode := j; Project.__v := 0 |})
     ∧ projects (app POST_project env req db).2
       = projects db ++
         [{| Project._id := new_ObjectId env; Project.name := n;
             Project.userId := FStr (Claims.userId u);
             Project.htmlCode := h; Project.cssCode := c;
             Project.jsCode := j; Project.__v := 0 |}]
     ∧ users (app POST_project env req db).2 = users db)
  ∧ (∀ res db',
       app POST_project env req db = (res, db') →
       statusCode res = 201 →
       ∃ d, projects db' = projects db ++ [d]
            ∧ users db' = users db
            ∧ res = status_json 201 (Project.toJSON d)
            ∧ Project._id d = new_ObjectId env
            ∧ Project.userId d = FStr (Claims.userId u))
  ∧ (∀ k v,
       k ∉ ["name"; "htmlCode"; "cssCode"; "jsCode"] →
       app POST_project env (with_body req (<[k := v]> (body req))) db
       = app POST_project env req db).
Proof.
  intros Ha. simpl. rewrite (authenticateToken_accepts _ _ _ _ u) by done.
  split_and!.
  - intros n h c j Hn Hh Hc Hj Hs Hfresh. unfold post_project. simpl.
    unfold Project.new. rewrite Hn, Hh, Hc, Hj, castString_string. simpl.
    unfold Project.save_new, store_ready. rewrite Hs. simpl.
    by rewrite (proj2 (list_find_None _ _) Hfresh).
  - intros res db' Hout Hres.
    apply post_project_201 in Hout as (uid & d & [= <-] & Hnew & -> & ->);
      [|done].
    exists d. split_and!; try done;
      apply new_Ok in Hnew as (? & ? & ? & ? & ? & _ & Hu & _ & _ & _ & ->);
      [done|].
    rewrite castString_string in Hu. by injection Hu as <-.
  - intros k v Hk.
    assert (authenticated env (with_body req (<[k:=v]> (body req))) u) as Ha'
      by done.
    rewrite (authenticateToken_accepts _ _ _ _ u) by done.
    unfold post_project, get. simpl.
    rewrite !lookup_insert_ne; [done|..];
      intros ->; apply Hk; set_solver.
Qed.

(** GET [/projects] by an authenticated caller, with the store answering:
    200 with the projects whose [userId] is the caller's, in the order the
    collection holds them; an empty array when there is none. *)
Lemma get_projects_found env req db u :
  authenticated env req u →
  store_fault env = None →
  app GET_projects env req db
  = (status_json 200
       (JArr (Project.toJSON <$>
                filter (λ x, Project.userId x = FStr (Claims.userId u))
                       (projects db))),
     db).
Proof.
  intros Ha Hs. simpl. rewrite (authenticateToken_accepts _ _ _ _ u) by done.
  unfold get_projects, Project.find, store_ready. simpl.
  rewrite castFilter_string, Hs. simpl.
  by rewrite sort_desc_createdAt, filter_bool_decide.
Qed.

(** C6, as the code has it: the list is in the order of the collection,
    which is the order of creation, oldest first.  After two successful
    creations by a caller, GET [/projects] for that caller ends with the
    two new projects, the later one last (the claim has it first).  The
    projects listed are the caller's, and the answer is 200 also when there
    are none; only the order differs: [sort({ createdAt: -1 })] names a
    path the schema does not have. *)
Theorem get_projects_oldest_first env1 env2 env3 req1 req2 req3 db u
    res1 db1 res2 db2 :
  authenticated env1 req1 u →
  authenticated env2 req2 u →
  authenticated env3 req3 u →
  app POST_project env1 req1 db = (res1, db1) →
  statusCode res1 = 201 →
  app POST_project env2 req2 db1 = (res2, db2) →
  statusCode res2 = 201 →
  store_fault env3 = None →
  ∃ d1 d2,
    res1 = status_json 201 (Project.toJSON d1)
    ∧ res2 = status_json 201 (Project.toJSON d2)
    ∧ app GET_projects env3 req3 db2
      = (status_json 200
           (JArr ((Project.toJSON <$>
                     filter (λ x, Project.userId x = FStr (Claims.userId u))
                            (projects db))
                  ++ [Project.toJSON d1; Project.toJSON d2])),
         db2).
Proof.
  intros Ha1 Ha2 Ha3 Hp1 Hr1 Hp2 Hr2 Hs.
  simpl in Hp1, Hp2.
  rewrite (authenticateToken_accepts _ _ _ _ u) in Hp1 by done.
  rewrite (authenticateToken_accepts _ _ _ _ u) in Hp2 by done.
  apply post_project_201 in Hp1 as (? & d1 & [= <-] & Hd1 & -> & ->); [|done].
  apply post_project_201 in Hp2 as (? & d2 & [= <-] & Hd2 & -> & ->); [|done].
  exists d1, d2. split_and!; [done..|].
  rewrite (get_projects_found _ _ _ u) by done. simpl.
  apply new_Ok in Hd1 as (? & ? & ? & ? & ? & _ & Hu1 & _ & _ & _ & ->).
  apply new_Ok in Hd2 as (? & ? & ? & ? & ? & _ & Hu2 & _ & _ & _ & ->).
  rewrite castString_string in Hu1, Hu2.
  injection Hu1 as <-. injection Hu2 as <-.
  rewrite !filter_app, !filter_cons_True, !filter_nil by done.
  by rewrite !fmap_app, <-app_assoc.
Qed.

Lemma put_path_lookup k f (o : gmap string JsValue) :
  put_path k f o !! k
  = match f with
    | FAbsent => o !! k
    | FNull => Some JNull
    | FStr s => Some (JStr s)
    end.
Proof. destruct f; simpl; by simplify_map_eq. Qed.

Lemma put_path_lookup_ne k k' f (o : gmap string JsValue) :
  k ≠ k' → put_path k f o !! k' = o !! k'.
Proof. intros ?. destruct f; simpl; by simplify_map_eq. Qed.

(** The JSON rendering of a project has a code key exactly when the path
    is set. *)
Lemma toJSON_code (d : Project.doc) :
  ∃ o, Project.toJSON d = JObj o
       ∧ (o !! "htmlCode" = None ↔ Project.htmlCode d = FAbsent)
       ∧ (o !! "cssCode" = None ↔ Project.cssCode d = FAbsent)
       ∧ (o !! "jsCode" = None ↔ Project.jsCode d = FAbsent).
Proof.
  eexists. split; [done|].
  rewrite !put_path_lookup_ne, !put_path_lookup by done.
  rewrite !put_path_lookup_ne, !put_path_lookup by done.
  rewrite !put_path_lookup_ne, !put_path_lookup by done.
  rewrite !lookup_insert_ne, !lookup_singleton_ne by done.
  by destruct (Project.htmlCode d), (Project.cssCode d), (Project.jsCode d).
Qed.

(** C8, amended: a project is stored with the code paths its creation
    request gave.  When POST [/project] succeeds, a code path the body omits
    is left unset in the stored document: neither the schema nor the
    handler supplies a default; a code path given as a string is stored as
    that string. *)
Theorem post_project_omitted_code_unset env req db u res db' :
  authenticated env req u →
  app POST_project env req db = (res, db') →
  statusCode res = 201 →
  ∃ d,
    projects db' = projects db ++ [d]
    ∧ res = status_json 201 (Project.toJSON d)
    ∧ (body req !! "htmlCode" = None → Project.htmlCode d = FAbsent)
    ∧ (body req !! "cssCode" = None → Project.cssCode d = FAbsent)
    ∧ (body req !! "jsCode" = None → Project.jsCode d = FAbsent)
    ∧ (∀ s, body req !! "htmlCode" = Some (JStr s) →
            Project.htmlCode d = FStr s)
    ∧ (∀ s, body req !! "cssCode" = Some (JStr s) →
            Project.cssCode d = FStr s)
    ∧ (∀ s, body req !! "jsCode" = Some (JStr s) →
            Project.jsCode d = FStr s).
Proof.
  intros Ha Hout Hres. simpl in Hout.
  rewrite (authenticateToken_accepts _ _ _ _ u) in Hout by done.
  apply post_project_201 in Hout as (? & d & _ & Hd & -> & ->); [|done].
  exists d. split_and!; [done..| | | | | |];
    apply new_Ok in Hd as (n' & u' & h' & c' & j' & _ & _ & Hh & Hc & Hj & ->);
    unfold get in *; simpl in *.
  - intros Hb. rewrite Hb in Hh. simpl in Hh.
    rewrite castString_undefined in Hh. by injection Hh as <-.
  - intros Hb. rewrite Hb in Hc. simpl in Hc.
    rewrite castString_undefined in Hc. by injection Hc as <-.
  - intros Hb. rewrite Hb in Hj. simpl in Hj.
    rewrite castString_undefined in Hj. by injection Hj as <-.
  - intros s Hb. rewrite Hb in Hh. simpl in Hh.
    rewrite castString_string in Hh. by injection Hh as <-.
  - intros s Hb. rewrite Hb in Hc. simpl in Hc.
    rewrite castString_string in Hc. by injection Hc as <-.
  - intros s Hb. rewrite Hb in Hj. simpl in Hj.
    rewrite castString_string in Hj. by injection Hj as <-.
Qed.

(** *** Registration and login *)

Lemma find_app_last {A} (f : A → bool) (l : list A) (x : A) :
  Forall (λ y, f y = false) l → f x = true → List.find f (l ++ [x]) = Some x.
Proof.
  intros Hall Hx. induction Hall as [|y l Hy _ IH]; simpl.
  - by rewrite Hx.
  - by rewrite Hy.
Qed.

(** [post_register] with a string password, on values that cast, a store
    that answers and a free id. *)
Lemma post_register_created env req db p u e :
  get (body req) "password" = JStr p →
  castString (get (body req) "username") = Ok u →
  castString (get (body req) "email") = Ok e →
  store_fault env = None →
  Forall (λ x, User._id x ≠ new_ObjectId env) (users db) →
  post_register env req db
  = (status_json 201 (message "User registered successfully"),
     with_users db (users db ++
       [{| User._id := new_ObjectId env; User.username := u;
           User.email := e;
           User.password := FStr (bcrypt.hashSync p 10 (genSalt env));
           User.__v := 0 |}])).
Proof.
  intros Hp Hu He Hs Hfresh. unfold post_register. rewrite Hp. simpl.
  unfold User.new. rewrite Hu, He, castString_string. simpl.
  unfold User.save, store_ready. rewrite Hs. simpl.
  by rewrite (proj2 (list_find_None _ _) Hfresh).
Qed.

(** [post_register] when the password is not a string: [bcrypt.hash]
    throws, whatever else the request and the store hold. *)
Lemma post_register_no_password env req db :
  (∀ p, get (body req) "password" ≠ JStr p) →
  post_register env req db
  = (status_json 400
       (error ("Illegal arguments: "
               +:+ typeof (get (body req) "password") +:+ ", number")),
     db).
Proof.
  intros Hp. unfold post_register.
  destruct (get (body req) "password"); try done. by destruct (Hp s).
Qed.

Lemma get_Some' (o : gmap string JsValue) k v :
  o !! k = Some v → get o k = v.
Proof. intros Hk. unfold get. by rewrite Hk. Qed.

(** C10, amended: POST [/register] does not require [username] or
    [email].  With a string [password], values of [username] and [email]
    that cast to a [String] path (a string, or the key absent, among them),
    the store answering and the new id free, it answers 201 and the users
    afterwards are those before with the new user appended, an absent key
    as an unset path.  When [password] is not a string (absent, [null], a
    number, ...) it answers 400 with the error [bcrypt.hash] throws on that
    value, and stores nothing.  So under those conditions on [username],
    [email] and the store, the answer is 400 exactly when [password] is not
    a string. *)
Theorem register_requires_only_password env req db :
  (∀ p u e,
     body req !! "password" = Some (JStr p) →
     castString (get (body req) "username") = Ok u →
     castString (get (body req) "email") = Ok e →
     store_fault env = None →
     Forall (λ x, User._id x ≠ new_ObjectId env) (users db) →
     (app POST_register env req db).1
     = status_json 201 (message "User registered successfully")
     ∧ users (app POST_register env req db).2
       = users db ++
         [{| User._id := new_ObjectId env; User.username := u;
             User.email := e;
             User.password := FStr (bcrypt.hashSync p 10 (genSalt env));
             User.__v := 0 |}]
     ∧ projects (app POST_register env req db).2 = projects db)
  ∧ (∀ p,
       body req !! "password" = Some (JStr p) →
       body req !! "username" = None →
       body req !! "email" = None →
       store_fault env = None →
       Forall (λ x, User._id x ≠ new_ObjectId env) (users db) →
       (app POST_register env req db).1
       = status_json 201 (message "User registered successfully")
       ∧ users (app POST_register env req db).2
         = users db ++
           [{| User._id := new_ObjectId env; User.username := FAbsent;
               User.email := FAbsent;
               User.password := FStr (bcrypt.hashSync p 10 (genSalt env));
               User.__v := 0 |}])
  ∧ ((∀ p, get (body req) "password" ≠ JStr p) →
     app POST_register env req db
     = (status_json 400
          (error ("Illegal arguments: "
                  +:+ typeof (get (body req) "password") +:+ ", number")),
        db))
  ∧ (body req !! "password" = None →
     app POST_register env req db
     = (status_json 400 (error "Illegal arguments: undefined, number"), db))
  ∧ (∀ u e,
       castString (get (body req) "username") = Ok u →
       castString (get (body req) "email") = Ok e →
       store_fault env = None →
       Forall (λ x, User._id x ≠ new_ObjectId env) (users db) →
       (statusCode (app POST_register env req db).1 = 400
        ↔ ∀ p, get (body req) "password" ≠ JStr p)).
Proof.
  simpl.
  assert (∀ p u e,
     body req !! "password" = Some (JStr p) →
     castString (get (body req) "username") = Ok u →
     castString (get (body req) "email") = Ok e →
     store_fault env = None →
     Forall (λ x, User._id x ≠ new_ObjectId env) (users db) →
     post_register env req db
     = (status_json 201 (message "User registered successfully"),
        with_users db (users db ++
          [{| User._id := new_ObjectId env; User.username := u;
              User.email := e;
              User.password := FStr (bcrypt.hashSync p 10 (genSalt env));
              User.__v := 0 |}]))) as Hcreated.
  { intros p u e Hp Hu He Hs Hfresh. apply post_register_created; try done.
    by apply get_Some'. }
  split_and!.
  - intros p u e Hp Hu He Hs Hfresh.
    by rewrite (Hcreated p u e Hp Hu He Hs Hfresh).
  - intros p Hp Hu He Hs Hfresh.
    rewrite (Hcreated p FAbsent FAbsent); try done; unfold get.
    + rewrite Hu. apply castString_undefined.
    + rewrite He. apply castString_undefined.
  - apply post_register_no_password.
  - intros Hp. rewrite post_register_no_password;
      unfold get; rewrite Hp; done.
  - intros u e Hu He Hs Hfresh. split.
    + intros Hst p Hp.
      rewrite (Hcreated p u e) in Hst; try done.
      unfold get in Hp. destruct (body req !! "password"); simpl in Hp;
        congruence.
    + intros Hnp. by rewrite post_register_no_password.
Qed.

(** C4: register, then log in with the same email and password.  With the
    three values strings, the store answering both times and keeping what
    it was given, the new id free, no user in the store under that email
    yet and a signing secret configured, registration answers 201, login
    answers 200 with a token, and the token verifies to claims whose
    [userId] is the [_id] of the user registration created. *)
Theorem register_then_login env1 env2 db req1 req2 username email password :
  body req1 !! "username" = Some (JStr username) →
  body req1 !! "email" = Some (JStr email) →
  body req1 !! "password" = Some (JStr password) →
  body req2 !! "email" = Some (JStr email) →
  body req2 !! "password" = Some (JStr password) →
  store_fault env1 = None →
  store_fault env2 = None →
  Forall (λ x, User._id x ≠ new_ObjectId env1) (users db) →
  Forall (λ x, User.email x ≠ FStr email) (users db) →
  JWT_SECRET env2 ≠ "" →
  ∃ db1 created token c,
    app POST_register env1 req1 db
    = (status_json 201 (message "User registered successfully"), db1)
    ∧ users db1 = users db ++ [created]
    ∧ User.email created = FStr email
    ∧ app POST_login env2 req2 db1
      = (status_json 200 (JObj {[ "token" := JStr token ]}), db1)
    ∧ jwt.verify token (JWT_SECRET env2) (now env2) = Ok c
    ∧ Claims.userId c = User._id created.
Proof.
  intros Hu He Hp He2 Hp2 Hs1 Hs2 Hfresh Hshadow Hsecret. simpl.
  set (created := {| User._id := new_ObjectId env1;
                     User.username := FStr username;
                     User.email := FStr email;
                     User.password :=
                       FStr (bcrypt.hashSync password 10 (genSalt env1));
                     User.__v := 0 |}).
  destruct (jwt.sign_ok {| Payload.userId := new_ObjectId env1;
                           Payload.username := FStr username |}
              (JWT_SECRET env2) (now env2) Hsecret) as [token Hsign].
  destruct (jwt.verify_sign _ _ _ _ (now env2) Hsign) as (c & Hv & Hc); [lia|].
  exists (with_users db (users db ++ [created])), created, token, c.
  split_and!; try done.
  - apply post_register_created; try done; unfold get.
    + by rewrite Hp.
    + rewrite Hu. apply castString_string.
    + rewrite He. apply castString_string.
  - unfold post_login, User.findOne, store_ready, get. simpl.
    rewrite He2, Hp2, Hs2. simpl. rewrite castFilter_string. simpl.
    rewrite (find_app_last _ _ created).
    + simpl. rewrite bcrypt.compareSync_hashSync. simpl.
      by rewrite Hsign.
    + eapply Forall_impl; [exact Hshadow|]. intros x Hx.
      by apply bool_decide_eq_false.
    + by apply bool_decide_eq_true.
Qed.

End Properties.

(** ** Further properties of the routes *)

Section Routes.
Context {B : bcrypt.Lib} {J : jwt.Lib} {M : Mongoose}.

Implicit Types (env : Env) (req : Request) (db : Db) (next : Handler).

(** *** What each handler can do to the database *)

(** A property of the database that the handler keeps, the middleware in
    front of it keeps. *)
Lemma authenticateToken_keeps (P : Db → Prop) next env req db :
  P db →
  (∀ req', P (next env req' db).2) →
  P (authenticateToken next env req db).2.
Proof.
  intros Hdb Hnext. unfold authenticateToken.
  destruct (header req "Authorization"); [|done].
  destruct (jwt.verify _ _ _); [apply Hnext|done].
Qed.

(** [post_register] stores nothing, or appends one user under the drawn id,
    which no stored user had. *)
Lemma post_register_cases env req db :
  (statusCode (post_register env req db).1 = 400
   ∧ (post_register env req db).2 = db)
  ∨ ∃ d p,
      post_register env req db
      = (status_json 201 (message "User registered successfully"),
         with_users db (users db ++ [d]))
      ∧ User._id d = new_ObjectId env
      ∧ body req !! "password" = Some (JStr p)
      ∧ User.password d = FStr (bcrypt.hashSync p 10 (genSalt env))
      ∧ Forall (λ x, User._id x ≠ User._id d) (users db).
Proof.
  unfold post_register, get.
  destruct (body req !! "password") as [[| | | |p| |]|] eqn:Hp; simpl;
    try (by left; split).
  unfold User.new.
  destruct (castString (default JUndefined (body req !! "username")))
    as [u|]; simpl; [|by left; split].
  destruct (castString (default JUndefined (body req !! "email")))
    as [e|]; simpl; [|by left; split].
  rewrite castString_string. simpl. unfold User.save, store_ready.
  destruct (store_fault env); simpl; [by left; split|].
  destruct (list_find _ (users db)) as [[i x]|] eqn:Hf; [by left; split|].
  right. eexists _, p. split_and!; try done.
  by apply list_find_None in Hf.
Qed.

(** [post_project] stores nothing, or appends one project under the drawn
    id, which no stored project had. *)
Lemma post_project_cases env req db :
  (statusCode (post_project env req db).1 = 400
   ∧ (post_project env req db).2 = db)
  ∨ ∃ d,
      post_project env req db
      = (status_json 201 (Project.toJSON d),
         with_projects db (projects db ++ [d]))
      ∧ Project._id d = new_ObjectId env
      ∧ Forall (λ x, Project._id x ≠ Project._id d) (projects db).
Proof.
  unfold post_project. destruct (user_userId req) as [uid|]; simpl;
    [|by left; split].
  destruct (Project.save_new _ _ _) as [[d ps]|m] eqn:Hsave; [|by left; split].
  apply save_new_Ok in Hsave as (Hnew & _ & Hfresh & ->).
  right. exists d. split_and!; try done.
  by apply new_Ok in Hnew as (? & ? & ? & ? & ? & _ & _ & _ & _ & _ & ->).
Qed.

(** [delete_project] removes nothing, or the one project the scan finds
    first under the id. *)
Lemma delete_project_cases env req db :
  ((statusCode (delete_project env req db).1 = 404
    ∨ statusCode (delete_project env req db).1 = 500)
   ∧ (delete_project env req db).2 = db)
  ∨ ∃ oid i d,
      castObjectId (projectId (params req)) = Ok oid
      ∧ list_find (λ x, Project._id x = oid) (projects db) = Some (i, d)
      ∧ delete_project env req db
        = (status_json 200 (message "Project deleted successfully"),
           with_projects db (delete i (projects db))).
Proof.
  destruct (castObjectId (projectId (params req))) as [oid|m] eqn:Hc.
  2: { left. unfold delete_project, Project.findByIdAndDelete.
       rewrite Hc. simpl. auto. }
  destruct (store_fault env) as [m|] eqn:Hs.
  { left. unfold delete_project, Project.findByIdAndDelete, store_ready.
    rewrite Hc, Hs. simpl. auto. }
  destruct (list_find (λ x, Project._id x = oid) (projects db))
    as [[i d]|] eqn:Hf.
  - right. exists oid, i, d. split_and!; [done..|].
    by apply (delete_project_found _ _ _ oid i d).
  - left. unfold delete_project, Project.findByIdAndDelete, store_ready.
    rewrite Hc, Hs. simpl. rewrite Hf. simpl. auto.
Qed.

(** [put_project] changes nothing, or overwrites the project the scan finds
    first under the id by one with the same [_id]. *)
Lemma put_project_cases env req db :
  ((statusCode (put_project env req db).1 = 404
    ∨ statusCode (put_project env req db).1 = 500)
   ∧ (put_project env req db).2 = db)
  ∨ ∃ i d d',
      projects db !! i = Some d
      ∧ Project._id d' = Project._id d
      ∧ put_project env req db
        = (status_json 200 (Project.toJSON d'),
           with_projects db (<[i := d']> (projects db))).
Proof.
  destruct (statusCode (put_project env req db).1 =? 200) eqn:Hst.
  - apply Z.eqb_eq in Hst.
    apply put_project_200 in Hst
      as (oid & i & d & d' & _ & _ & Hf & Hd' & Hput).
    right. exists i, d, d'. split_and!; [|by eapply set_code_id|done].
    by apply list_find_Some in Hf as (? & _).
  - apply Z.eqb_neq in Hst. left. revert Hst. unfold put_project.
    destruct (Project.findById _ _ _) as [[d|]|m]; simpl; [|auto..].
    destruct (Project.save _ _ _) as [[d' ps]|m]; simpl; [done|auto].
Qed.

(** X1: the routes that only read.  Login, [/protected], the list and the
    GET of one project leave the database as it is, whatever the request
    and whether or not they succeed. *)
Theorem reading_routes_change_nothing env req db :
  (app POST_login env req db).2 = db
  ∧ (app GET_protected env req db).2 = db
  ∧ (app GET_projects env req db).2 = db
  ∧ (app GET_project env req db).2 = db.
Proof.
  split_and!; simpl.
  - unfold post_login. by destruct (_ ≫= _).
  - by apply (authenticateToken_keeps (λ d, d = db)).
  - apply (authenticateToken_keeps (λ d, d = db)); [done|]. intros req'.
    unfold get_projects. by destruct (_ ≫= _).
  - apply (authenticateToken_keeps (λ d, d = db)); [done|]. intros req'.
    unfold get_project. by destruct (Project.findById _ _ _).
Qed.

(** X2: ids stay unique.  In a database whose users and whose projects have
    pairwise different [_id]s, every route leaves them so: an insert under
    an id the collection holds is refused, and an update keeps the id. *)
Theorem routes_keep_ids_unique (r : Route) env req db :
  NoDup (User._id <$> users db) →
  unique_ids (projects db) →
  NoDup (User._id <$> users (app r env req db).2)
  ∧ unique_ids (projects (app r env req db).2).
Proof.
  intros Hu Hp.
  set (P := λ d : Db, NoDup (User._id <$> users d) ∧ unique_ids (projects d)).
  assert (P db) as Hdb by done.
  destruct r; simpl.
  - destruct (post_register_cases env req db)
      as [[_ ->]|(d & p & -> & _ & _ & _ & Hfresh)]; [done|].
    split; [|done]. simpl. rewrite fmap_app. apply NoDup_app.
    split_and!; [done| |by apply NoDup_singleton].
    intros x (y & Hxy & Hy)%list_elem_of_fmap Hx.
    apply list_elem_of_singleton in Hx. subst x.
    by apply (proj1 (Forall_forall _ _) Hfresh) in Hy.
  - unfold post_login. by destruct (_ ≫= _).
  - by apply (authenticateToken_keeps P).
  - apply (authenticateToken_keeps P); [done|]. intros req'.
    unfold get_projects. by destruct (_ ≫= _).
  - apply (authenticateToken_keeps P); [done|]. intros req'.
    unfold get_project. by destruct (Project.findById _ _ _).
  - apply (authenticateToken_keeps P); [done|]. intros req'.
    destruct (delete_project_cases env req' db)
      as [[_ ->]|(oid & i & d & _ & _ & ->)]; [done|].
    split; [done|]. unfold unique_ids in *. simpl.
    rewrite list_fmap_delete. eapply sublist_NoDup; [done|apply sublist_delete].
  - apply (authenticateToken_keeps P); [done|]. intros req'.
    destruct (post_project_cases env req' db)
      as [[_ ->]|(d & -> & _ & Hfresh)]; [done|].
    split; [done|]. unfold unique_ids in *. simpl.
    rewrite fmap_app. apply NoDup_app.
    split_and!; [done| |by apply NoDup_singleton].
    intros x (y & Hxy & Hy)%list_elem_of_fmap Hx.
    apply list_elem_of_singleton in Hx. subst x.
    by apply (proj1 (Forall_forall _ _) Hfresh) in Hy.
  - apply (authenticateToken_keeps P); [done|]. intros req'.
    destruct (put_project_cases env req' db)
      as [[_ ->]|(i & d & d' & Hi & Hid & ->)]; [done|].
    split; [done|]. unfold unique_ids in *. simpl.
    rewrite list_fmap_insert, Hid.
    rewrite list_insert_id; [done|]. by rewrite list_lookup_fmap, Hi.
Qed.

(** *** The route table *)

(** X3: every route but register and login is behind the middleware.
    Without an [Authorization] header it answers 401, with a header that
    does not verify 403, and in both cases the database is untouched. *)
Theorem protected_routes_need_token (r : Route) env req db :
  r ≠ POST_register →
  r ≠ POST_login →
  (header req "Authorization" = None →
   app r env req db
   = ({| statusCode := 401; sent := text "Unauthorized" |}, db))
  ∧ (∀ token m,
       header req "Authorization" = Some token →
       jwt.verify token (JWT_SECRET env) (now env) = Err m →
       app r env req db
       = ({| statusCode := 403; sent := text "Forbidden" |}, db)).
Proof.
  intros Hr Hl. split.
  - intros Hh. destruct r; try done; simpl; unfold authenticateToken;
      by rewrite Hh.
  - intros token m Hh Hv. destruct r; try done; simpl;
      unfold authenticateToken; by rewrite Hh, Hv.
Qed.

(** X4: GET [/protected] answers 401 exactly when there is no
    [Authorization] header, 403 exactly when there is one that does not
    verify, and 200 exactly when it verifies. *)
Theorem get_protected_status env req db :
  (statusCode (app GET_protected env req db).1 = 401
   ↔ header req "Authorization" = None)
  ∧ (statusCode (app GET_protected env req db).1 = 403
     ↔ ∃ token m, header req "Authorization" = Some token
                  ∧ jwt.verify token (JWT_SECRET env) (now env) = Err m)
  ∧ (statusCode (app GET_protected env req db).1 = 200
     ↔ ∃ u, authenticated env req u).
Proof.
  simpl. unfold authenticateToken, authenticated.
  destruct (header req "Authorization") as [token|] eqn:Hh; simpl.
  - destruct (jwt.verify token _ _) as [u|m] eqn:Hv; simpl.
    + split_and!; split; try done.
      * intros (? & ? & ? & ?). congruence.
      * intros _. by exists u, token.
    + split_and!; split; try done.
      * intros _. by exists token, m.
      * intros (? & ? & ? & ?). congruence.
  - split_and!; split; try done.
    + by intros (? & ? & ? & _).
    + by intros (? & ? & ? & _).
Qed.

(** *** Errors *)

(** X5: a project id the store does not hold.  For a well-formed id under
    which no project is stored, DELETE answers 404 with the message and PUT
    answers 404 with the error, and neither changes the database. *)
Theorem delete_and_put_missing_project_404 env req db u oid :
  authenticated env req u →
  castObjectId (projectId (params req)) = Ok oid →
  store_fault env = None →
  Forall (λ x, Project._id x ≠ oid) (projects db) →
  app DELETE_project env req db
  = (status_json 404 (message "Project not found"), db)
  ∧ app PUT_project env req db
    = (status_json 404 (error "Project not found"), db).
Proof.
  intros Ha Hc Hs Hall. simpl.
  rewrite !(authenticateToken_accepts _ _ _ _ u) by done.
  apply (proj2 (list_find_None _ _)) in Hall. split.
  - unfold delete_project, Project.findByIdAndDelete, store_ready. simpl.
    rewrite Hc, Hs. simpl. by rewrite Hall.
  - unfold put_project, Project.findById, store_ready. simpl.
    rewrite Hc, Hs. simpl. by rewrite Hall.
Qed.

(** X6: a project id that is not an ObjectId.  When the route parameter does
    not cast, GET and DELETE answer 500 with the message of the cast error
    and PUT answers 500 with its fixed message; none reads or changes the
    store. *)
Theorem malformed_project_id_500 env req db u m :
  authenticated env req u →
  castObjectId (projectId (params req)) = Err m →
  app GET_project env req db = (status_json 500 (error m), db)
  ∧ app DELETE_project env req db = (status_json 500 (error m), db)
  ∧ app PUT_project env req db
    = (status_json 500 (error "Failed to save project code"), db).
Proof.
  intros Ha Hc. simpl.
  rewrite !(authenticateToken_accepts _ _ _ _ u) by done.
  unfold get_project, delete_project, put_project, Project.findById,
    Project.findByIdAndDelete. simpl. by rewrite Hc.
Qed.

(** X7: the store is down.  When the store rejects the operations of a
    request, register, login and create answer 400, the list, GET, DELETE
    and PUT answer 500, and no route changes the database. *)
Theorem store_fault_is_an_error_response env req db u m :
  store_fault env = Some m →
  authenticated env req u →
  (statusCode (app POST_register env req db).1 = 400
   ∧ statusCode (app POST_login env req db).1 = 400
   ∧ statusCode (app POST_project env req db).1 = 400
   ∧ statusCode (app GET_projects env req db).1 = 500
   ∧ statusCode (app GET_project env req db).1 = 500
   ∧ statusCode (app DELETE_project env req db).1 = 500
   ∧ statusCode (app PUT_project env req db).1 = 500)
  ∧ ∀ r, (app r env req db).2 = db.
Proof.
  intros Hs Ha.
  assert (statusCode (post_register env req db).1 = 400
          ∧ (post_register env req db).2 = db) as Hreg.
  { destruct (post_register_cases env req db)
      as [?|(d & p & Hout & _)]; [done|].
    exfalso. revert Hout. unfold post_register, User.save, store_ready.
    rewrite Hs.
    destruct (bcrypt.hash _ _ _); simpl; [|done].
    by destruct (User.new _ _ _ _). }
  assert (statusCode (post_login env req db).1 = 400
          ∧ (post_login env req db).2 = db) as Hlog.
  { unfold post_login, User.findOne, store_ready. rewrite Hs.
    by destruct (castFilter _). }
  assert (∀ req', statusCode (post_project env req' db).1 = 400
                  ∧ (post_project env req' db).2 = db) as Hpost.
  { intros req'. destruct (post_project_cases env req' db)
      as [?|(d & Hout & _)]; [done|].
    exfalso. revert Hout. unfold post_project, Project.save_new, store_ready.
    rewrite Hs. destruct (user_userId req'); simpl; [|done].
    by destruct (Project.new _ _ _ _ _ _). }
  assert (∀ req', user req' = Some u →
                  statusCode (get_projects env req' db).1 = 500
                  ∧ (get_projects env req' db).2 = db) as Hlist.
  { intros req' Hu. unfold get_projects, user_userId, Project.find,
      store_ready. rewrite Hu, Hs. simpl. by rewrite castFilter_string. }
  assert (∀ req', statusCode (get_project env req' db).1 = 500
                  ∧ (get_project env req' db).2 = db) as Hget.
  { intros req'. unfold get_project, Project.findById, store_ready.
    rewrite Hs. by destruct (castObjectId _). }
  assert (∀ req', statusCode (delete_project env req' db).1 = 500
                  ∧ (delete_project env req' db).2 = db) as Hdel.
  { intros req'. unfold delete_project, Project.findByIdAndDelete,
      store_ready. rewrite Hs. by destruct (castObjectId _). }
  assert (∀ req', statusCode (put_project env req' db).1 = 500
                  ∧ (put_project env req' db).2 = db) as Hput.
  { intros req'. unfold put_project, Project.findById, store_ready.
    rewrite Hs. by destruct (castObjectId _). }
  split.
  - simpl. rewrite !(authenticateToken_accepts _ _ _ _ u) by done.
    split_and!; [apply Hreg|apply Hlog|apply Hpost|by apply Hlist
                |apply Hget|apply Hdel|apply Hput].
  - intros r. destruct r; simpl;
      rewrite ?(authenticateToken_accepts _ _ _ _ u) by done.
    + apply Hreg.
    + apply Hlog.
    + done.
    + by apply Hlist.
    + apply Hget.
    + apply Hdel.
    + apply Hpost.
    + apply Hput.
Qed.

(** *** Frames *)

(** X8: what DELETE changes.  A DELETE that answers 200 removed one project,
    the first the collection holds under the id of the request; the other
    projects are kept, in their order, and the users are untouched.  A
    DELETE that does not answer 200 changed nothing. *)
Theorem delete_project_frame env req db u res db' :
  authenticated env req u →
  app DELETE_project env req db = (res, db') →
  (statusCode res = 200 →
   users db' = users db
   ∧ ∃ i d,
       projects db !! i = Some d
       ∧ castObjectId (projectId (params req)) = Ok (Project._id d)
       ∧ projects db' = delete i (projects db)
       ∧ ∀ x, x ∈ projects db' → x ∈ projects db)
  ∧ (statusCode res ≠ 200 → db' = db).
Proof.
  intros Ha. simpl. rewrite (authenticateToken_accepts _ _ _ _ u) by done.
  intros Hout.
  destruct (delete_project_cases env (set_user req u) db)
    as [[Hst Hdb]|(oid & i & d & Hc & Hf & Hdel)].
  - rewrite Hout in Hst, Hdb. simpl in *. split; [|done].
    intros H200. rewrite H200 in Hst. by destruct Hst.
  - rewrite Hout in Hdel. injection Hdel as -> ->. split; [|done].
    intros _. split; [done|]. exists i, d.
    apply list_find_Some in Hf as (Hi & <- & _). split_and!; try done.
    intros x. simpl. apply list_elem_of_delete_inv.
Qed.

(** X9: what register changes.  A registration that answers 201 appended
    one user, under the drawn id and with the bcrypt digest (cost 10, the
    drawn salt) of the [password] string of the body as its password; the
    users before it and the projects are untouched.  Any other answer is
    400 and nothing is stored. *)
Theorem post_register_frame env req db res db' :
  app POST_register env req db = (res, db') →
  projects db' = projects db
  ∧ (statusCode res = 201 →
     ∃ d p,
       users db' = users db ++ [d]
       ∧ User._id d = new_ObjectId env
       ∧ body req !! "password" = Some (JStr p)
       ∧ User.password d = FStr (bcrypt.hashSync p 10 (genSalt env)))
  ∧ (statusCode res ≠ 201 → statusCode res = 400 ∧ db' = db).
Proof.
  simpl. intros Hout.
  destruct (post_register_cases env req db)
    as [[Hst Hdb]|(d & p & Hreg & Hid & Hp & Hpw & _)].
  - rewrite Hout in Hst, Hdb. simpl in *. subst db'.
    split_and!; [done| |done]. intros H201. by rewrite H201 in Hst.
  - rewrite Hout in Hreg. injection Hreg as -> ->.
    split_and!; [done| |done]. intros _. by exists d, p.
Qed.

(** X10: what create changes.  A POST [/project] that answers 201 appended
    one project, under the drawn id; the projects before it and the users
    are untouched.  Any other answer of the handler is 400 and nothing is
    stored. *)
Theorem post_project_frame env req db u res db' :
  authenticated env req u →
  app POST_project env req db = (res, db') →
  users db' = users db
  ∧ (statusCode res = 201 →
     ∃ d, projects db' = projects db ++ [d]
          ∧ Project._id d = new_ObjectId env
          ∧ res = status_json 201 (Project.toJSON d))
  ∧ (statusCode res ≠ 201 → statusCode res = 400 ∧ db' = db).
Proof.
  intros Ha. simpl. rewrite (authenticateToken_accepts _ _ _ _ u) by done.
  intros Hout.
  destruct (post_project_cases env (set_user req u) db)
    as [[Hst Hdb]|(d & Hpost & Hid & _)].
  - rewrite Hout in Hst, Hdb. simpl in *. subst db'.
    split_and!; [done| |done]. intros H201. by rewrite H201 in Hst.
  - rewrite Hout in Hpost. injection Hpost as -> ->.
    split_and!; [done| |done]. intros _. by exists d.
Qed.

(** *** How the project routes compose *)

(** The scan of a collection, after an insert under an id it did not hold,
    finds the new document under that id. *)
Lemma list_find_appended (coll : list Project.doc) d :
  Forall (λ x, Project._id x ≠ Project._id d) coll →
  list_find (λ x, Project._id x = Project._id d) (coll ++ [d])
  = Some (length coll, d).
Proof.
  intros Hfresh. apply list_find_app_Some. right.
  split_and!; [done|by apply list_find_None|].
  rewrite Nat.sub_diag. simpl. by rewrite decide_True.
Qed.

(** X11: create, then get.  After a POST [/project] that answered 201, a GET
    by any authenticated caller whose route parameter casts to the id drawn
    for the project answers 200 with the project the creation returned. *)
Theorem create_then_get env env' req req' db u u' res db' :
  authenticated env req u →
  app POST_project env req db = (res, db') →
  statusCode res = 201 →
  authenticated env' req' u' →
  castObjectId (projectId (params req')) = Ok (new_ObjectId env) →
  store_fault env' = None →
  ∃ d, res = status_json 201 (Project.toJSON d)
       ∧ app GET_project env' req' db'
         = (status_json 200 (Project.toJSON d), db').
Proof.
  intros Ha Hout Hres Ha' Hc Hs. simpl in *.
  rewrite (authenticateToken_accepts _ _ _ _ u) in Hout by done.
  rewrite (authenticateToken_accepts _ _ _ _ u') by done.
  destruct (post_project_cases env (set_user req u) db)
    as [[Hst _]|(d & Hpost & Hid & Hfresh)].
  { rewrite Hout in Hst. simpl in Hst. congruence. }
  rewrite Hout in Hpost. injection Hpost as -> ->. exists d. split; [done|].
  unfold get_project. simpl.
  rewrite (proj2 (findById_Some env' _ _ d)); [done|].
  exists (new_ObjectId env), (length (projects db)).
  split_and!; [done..|]. rewrite <-Hid. by apply list_find_appended.
Qed.

(** X12: create, then delete.  After a POST [/project] that answered 201, a
    DELETE whose route parameter casts to the drawn id answers 200 and
    leaves the database exactly as it was before the creation. *)
Theorem create_then_delete_restores env env' req req' db u u' res db' :
  authenticated env req u →
  app POST_project env req db = (res, db') →
  statusCode res = 201 →
  authenticated env' req' u' →
  castObjectId (projectId (params req')) = Ok (new_ObjectId env) →
  store_fault env' = None →
  app DELETE_project env' req' db'
  = (status_json 200 (message "Project deleted successfully"), db).
Proof.
  intros Ha Hout Hres Ha' Hc Hs. simpl in *.
  rewrite (authenticateToken_accepts _ _ _ _ u) in Hout by done.
  rewrite (authenticateToken_accepts _ _ _ _ u') by done.
  destruct (post_project_cases env (set_user req u) db)
    as [[Hst _]|(d & Hpost & Hid & Hfresh)].
  { rewrite Hout in Hst. simpl in Hst. congruence. }
  rewrite Hout in Hpost. injection Hpost as -> ->.
  rewrite (delete_project_found _ _ _ (new_ObjectId env)
             (length (projects db)) d); try done.
  - simpl. unfold with_projects. simpl.
    rewrite delete_take_drop, take_app_length.
    rewrite drop_ge by (rewrite length_app; simpl; lia).
    rewrite app_nil_r. by destruct db.
  - simpl. rewrite <-Hid. by apply list_find_appended.
Qed.

(** X13: delete twice.  In a store with unique ids, the DELETE that follows a
    successful DELETE of the same id answers 404 and changes nothing. *)
Theorem delete_twice_404 env env' req db u u' res db' :
  authenticated env req u →
  authenticated env' req u' →
  unique_ids (projects db) →
  store_fault env' = None →
  app DELETE_project env req db = (res, db') →
  statusCode res = 200 →
  app DELETE_project env' req db'
  = (status_json 404 (message "Project not found"), db').
Proof.
  intros Ha Ha' Hnd Hs Hout Hres. simpl in *.
  rewrite (authenticateToken_accepts _ _ _ _ u) in Hout by done.
  rewrite (authenticateToken_accepts _ _ _ _ u') by done.
  destruct (delete_project_cases env (set_user req u) db)
    as [[Hst _]|(oid & i & d & Hc & Hf & Hdel)].
  { rewrite Hout in Hst. simpl in Hst. destruct Hst; congruence. }
  rewrite Hout in Hdel. injection Hdel as -> ->.
  pose proof (delete_found_gone _ _ _ _ Hnd Hf) as Hgone.
  apply (proj2 (list_find_None _ _)) in Hgone.
  unfold delete_project, Project.findByIdAndDelete, store_ready. simpl in *.
  rewrite Hc, Hs. simpl. by rewrite Hgone.
Qed.

(** X14: update twice.  A PUT that answered 200, sent again with the same
    body, answers the same and leaves the database as the first PUT left
    it. *)
Theorem put_project_idempotent env env' req db u u' res db' :
  authenticated env req u →
  authenticated env' req u' →
  store_fault env' = None →
  app PUT_project env req db = (res, db') →
  statusCode res = 200 →
  app PUT_project env' req db' = (res, db').
Proof.
  intros Ha Ha' Hs Hout Hres. simpl in *.
  rewrite (authenticateToken_accepts _ _ _ _ u) in Hout by done.
  rewrite (authenticateToken_accepts _ _ _ _ u') by done.
  destruct (put_project_200 env (set_user req u) db)
    as (oid & i & d & d' & Hc & _ & Hf & Hd' & Hput).
  { by rewrite Hout. }
  rewrite Hout in Hput. injection Hput as -> ->.
  assert (list_find (λ x, Project._id x = oid) (<[i:=d']> (projects db))
          = Some (i, d')) as Hf'.
  { apply set_code_id in Hd' as Hid.
    apply list_find_Some in Hf as (Hi & Hoid & Hfirst).
    apply list_find_insert_Some. right; left.
    split_and!; [done|done|by eapply lookup_lt_Some|congruence|done]. }
  rewrite (put_project_found env' (set_user req u')
             (with_projects db (<[i:=d']> (projects db))) oid i d');
    [|done..].
  assert (new_code (set_user req u') d' = Ok d') as ->.
  { apply set_code_Ok in Hd' as (h' & c' & j' & Hh & Hcs & Hj & ->).
    apply set_code_Ok. by exists h', c', j'. }
  unfold with_projects. simpl. by rewrite list_insert_insert_eq.
Qed.

(** X15: the owner and the name of a project are fixed.  Whatever the route
    and the request, a project in the database afterwards was there before,
    or is the one the request created, or has the [_id], [name], [userId]
    and [__v] of a project that was there before (an update). *)
Theorem no_route_changes_owner (r : Route) env req db d' :
  d' ∈ projects (app r env req db).2 →
  d' ∈ projects db
  ∨ (r = POST_project ∧ Project._id d' = new_ObjectId env)
  ∨ (r = PUT_project
     ∧ ∃ d, d ∈ projects db
            ∧ Project._id d' = Project._id d
            ∧ Project.name d' = Project.name d
            ∧ Project.userId d' = Project.userId d
            ∧ Project.__v d' = Project.__v d).
Proof.
  set (P := λ db0 : Db, d' ∈ projects db0 →
    d' ∈ projects db
    ∨ (r = POST_project ∧ Project._id d' = new_ObjectId env)
    ∨ (r = PUT_project
       ∧ ∃ d, d ∈ projects db
              ∧ Project._id d' = Project._id d
              ∧ Project.name d' = Project.name d
              ∧ Project.userId d' = Project.userId d
              ∧ Project.__v d' = Project.__v d)).
  assert (P db) as Hdb by (by left).
  change (P (app r env req db).2). destruct r; simpl.
  - destruct (post_register_cases env req db)
      as [[_ ->]|(d & p & -> & _)]; exact Hdb.
  - unfold post_login. destruct (_ ≫= _); exact Hdb.
  - apply (authenticateToken_keeps P); [exact Hdb|]. intros; exact Hdb.
  - apply (authenticateToken_keeps P); [exact Hdb|]. intros req'.
    unfold get_projects. destruct (_ ≫= _); exact Hdb.
  - apply (authenticateToken_keeps P); [exact Hdb|]. intros req'.
    unfold get_project. destruct (Project.findById _ _ _); exact Hdb.
  - apply (authenticateToken_keeps P); [exact Hdb|]. intros req'.
    destruct (delete_project_cases env req' db)
      as [[_ ->]|(oid & i & d & _ & _ & ->)]; [exact Hdb|].
    intros Hin. left. simpl in Hin. by eapply list_elem_of_delete_inv.
  - apply (authenticateToken_keeps P); [exact Hdb|]. intros req'.
    destruct (post_project_cases env req' db)
      as [[_ ->]|(d & -> & Hid & _)]; [exact Hdb|].
    simpl. intros [?|Hin]%elem_of_app; [by left|].
    apply list_elem_of_singleton in Hin as ->. right; left. done.
  - apply (authenticateToken_keeps P); [exact Hdb|]. intros req'.
    destruct (put_project_cases env req' db)
      as [[_ ->]|(i & d & d0 & Hi & Hid & Hput)]; [exact Hdb|].
    assert (statusCode (put_project env req' db).1 = 200) as Hst
      by (by rewrite Hput).
    apply put_project_200 in Hst
      as (oid & i1 & d1 & d2 & _ & _ & Hf & Hd2 & Hput').
    rewrite Hput'. intros Hin. simpl in Hin.
    apply list_elem_of_lookup in Hin as [j Hj].
    apply list_find_Some in Hf as (Hi1 & _).
    destruct (decide (i1 = j)) as [->|Hne].
    + rewrite list_lookup_insert_eq in Hj by (by eapply lookup_lt_Some).
      injection Hj as <-. right; right. split; [done|]. exists d1.
      apply set_code_Ok in Hd2 as (? & ? & ? & _ & _ & _ & ->).
      split_and!; try done. by eapply list_elem_of_lookup_2.
    + rewrite list_lookup_insert_ne in Hj by done.
      left. by eapply list_elem_of_lookup_2.
Qed.

(** *** Login *)

Lemma get_Some (o : gmap string JsValue) k v : o !! k = Some v → get o k = v.
Proof. intros Hk. unfold get. by rewrite Hk. Qed.

Lemma get_None (o : gmap string JsValue) k :
  o !! k = None → get o k = JUndefined.
Proof. intros Hk. unfold get. by rewrite Hk. Qed.

Lemma find_app_first {A} (f : A → bool) (l1 l2 : list A) (x : A) :
  Forall (λ y, f y = false) l1 → f x = true →
  List.find f (l1 ++ x :: l2) = Some x.
Proof.
  intros Hall Hx. induction Hall as [|y l Hy _ IH]; simpl.
  - by rewrite Hx.
  - by rewrite Hy.
Qed.

(** [User.findOne] by a string email, on a store that answers: the first
    user of the collection with that email. *)
Lemma findOne_first env e (l1 l2 : list User.doc) d :
  store_fault env = None →
  Forall (λ x, User.email x ≠ FStr e) l1 →
  User.email d = FStr e →
  User.findOne env (JStr e) (l1 ++ d :: l2) = Ok (Some d).
Proof.
  intros Hs Hl1 Hd. unfold User.findOne, store_ready.
  rewrite castFilter_string, Hs. simpl. unfold mret, Result_ret. do 2 f_equal.
  apply find_app_first.
  - eapply Forall_impl; [exact Hl1|]. intros x Hx.
    by apply bool_decide_eq_false.
  - by apply bool_decide_eq_true.
Qed.

(** A 200 from [post_login] means a stored user passed the email filter,
    bcrypt accepted the password of the body against the digest stored for
    that user, and the token is the one signed for that user's [_id]. *)
Lemma post_login_200 env req db :
  statusCode (post_login env req db).1 = 200 →
  ∃ d p h token,
    User.findOne env (get (body req) "email") (users db) = Ok (Some d)
    ∧ body req !! "password" = Some (JStr p)
    ∧ User.password d = FStr h
    ∧ bcrypt.compareSync p h = true
    ∧ jwt.sign {| Payload.userId := User._id d;
                  Payload.username := User.username d |}
               (JWT_SECRET env) "1h" (now env) = Ok token
    ∧ post_login env req db
      = (status_json 200 (JObj {[ "token" := JStr token ]}), db).
Proof.
  unfold post_login.
  destruct (User.findOne _ _ _) as [[d|]|m]; simpl; [|done..].
  unfold get.
  destruct (body req !! "password") as [[| | | |p| |]|] eqn:Hp; simpl;
    try done; try by destruct (User.password d).
  destruct (User.password d) as [| |h] eqn:Hh; simpl; [done..|].
  destruct (bcrypt.compareSync p h) eqn:Hm; simpl; [|done].
  destruct (jwt.sign _ _ _ _) as [token|m] eqn:Hsign; simpl; [|done].
  intros _. by exists d, p, h, token.
Qed.

(** X16: login with an email no user has.  For a string email under which no
    user is stored, on a store that answers, login is 404 "User not found",
    whatever the password. *)
Theorem login_unknown_email_404 env req db e :
  body req !! "email" = Some (JStr e) →
  store_fault env = None →
  Forall (λ x, User.email x ≠ FStr e) (users db) →
  app POST_login env req db = (status_json 404 (error "User not found"), db).
Proof.
  intros He Hs Hall. simpl. unfold post_login, User.findOne, store_ready.
  rewrite (get_Some _ _ _ He), castFilter_string, Hs. simpl.
  assert (List.find (λ x, bool_decide (User.email x = FStr e)) (users db)
          = None) as ->; [|done].
  induction Hall as [|x l Hx _ IH]; [done|]. simpl.
  by rewrite bool_decide_eq_false_2.
Qed.

(** X17: login with the wrong password, or none.  When the first user stored
    under the email has a digest bcrypt does not accept for the password of
    the body, login is 401 "Invalid credentials"; when the body has no
    [password], it is 400 with the error [bcrypt.compare] throws.  Neither
    issues a token. *)
Theorem login_wrong_or_missing_password env req db e l1 d l2 h :
  body req !! "email" = Some (JStr e) →
  store_fault env = None →
  users db = l1 ++ d :: l2 →
  Forall (λ x, User.email x ≠ FStr e) l1 →
  User.email d = FStr e →
  User.password d = FStr h →
  (∀ p, body req !! "password" = Some (JStr p) →
        bcrypt.compareSync p h = false →
        app POST_login env req db
        = (status_json 401 (error "Invalid credentials"), db))
  ∧ (body req !! "password" = None →
     app POST_login env req db
     = (status_json 400 (error "Illegal arguments: undefined, string"), db)).
Proof.
  intros He Hs Hu Hl1 Hd Hh. simpl. unfold post_login.
  rewrite (get_Some _ _ _ He), Hu.
  rewrite (findOne_first env e l1 l2 d) by done. simpl. rewrite Hh. simpl.
  split.
  - intros p Hp Hm. rewrite (get_Some _ _ _ Hp). simpl. by rewrite Hm.
  - intros Hp. by rewrite (get_None _ _ Hp).
Qed.

(** X18: login resolves an email to the first user stored under it.  When
    bcrypt accepts the password for that user's digest and a signing secret
    is configured, login is 200 with a token that verifies to that user's
    [_id], whatever users are stored after it, the same email included. *)
Theorem login_resolves_first_user env req db e p l1 d l2 h :
  body req !! "email" = Some (JStr e) →
  body req !! "password" = Some (JStr p) →
  store_fault env = None →
  JWT_SECRET env ≠ "" →
  users db = l1 ++ d :: l2 →
  Forall (λ x, User.email x ≠ FStr e) l1 →
  User.email d = FStr e →
  User.password d = FStr h →
  bcrypt.compareSync p h = true →
  ∃ token c,
    app POST_login env req db
    = (status_json 200 (JObj {[ "token" := JStr token ]}), db)
    ∧ jwt.verify token (JWT_SECRET env) (now env) = Ok c
    ∧ Claims.userId c = User._id d.
Proof.
  intros He Hp Hs Hsecret Hu Hl1 Hd Hh Hm.
  destruct (jwt.sign_ok {| Payload.userId := User._id d;
                           Payload.username := User.username d |}
              (JWT_SECRET env) (now env) Hsecret) as [token Hsign].
  destruct (jwt.verify_sign _ _ _ _ (now env) Hsign) as (c & Hv & Hc); [lia|].
  exists token, c. split_and!; [|done..]. simpl. unfold post_login.
  rewrite (get_Some _ _ _ He), (get_Some _ _ _ Hp), Hu.
  rewrite (findOne_first env e l1 l2 d) by done. simpl. rewrite Hh.
  simpl. rewrite Hm. simpl. by rewrite Hsign.
Qed.

(** X19: no token without a password match.  Whenever login answers 200,
    some stored user has a digest that bcrypt accepts for the password
    string of the body, and the token in the response is the one signed,
    for one hour, for that user's [_id]; it verifies to that [_id] at any
    time within the hour under the same secret. *)
Theorem login_200_requires_password_match env req db :
  statusCode (app POST_login env req db).1 = 200 →
  ∃ d p h token,
    d ∈ users db
    ∧ body req !! "password" = Some (JStr p)
    ∧ User.password d = FStr h
    ∧ bcrypt.compareSync p h = true
    ∧ app POST_login env req db
      = (status_json 200 (JObj {[ "token" := JStr token ]}), db)
    ∧ ∀ env' req',
        JWT_SECRET env' = JWT_SECRET env →
        now env ≤ now env' < now env + 3600 →
        header req' "Authorization" = Some token →
        ∃ c, authenticated env' req' c ∧ Claims.userId c = User._id d.
Proof.
  simpl. intros (d & p & h & token & Hfind & Hp & Hh & Hm & Hsign & Hout)
    %post_login_200.
  exists d, p, h, token. split_and!; try done.
  - unfold User.findOne in Hfind.
    destruct (castFilter _) as [test|]; simpl in Hfind; [|done].
    destruct (store_ready env); simpl in Hfind; [|done].
    injection Hfind as Hfind. apply find_some in Hfind as [Hin _].
    by apply list_elem_of_In.
  - intros env' req' Hsec Hnow Hh'.
    destruct (jwt.verify_sign _ _ _ _ (now env') Hsign) as (c & Hv & Hc);
      [done|].
    exists c. split; [|done]. exists token. by rewrite Hsec.
Qed.

(** X20: a second registration under an email is accepted and shadowed.
    Register does not look the email up: with the email of a stored user it
    still answers 201 and stores a second user.  Login under that email
    keeps resolving to the first user: with the new password it is 401
    when bcrypt does not accept it for the first user's digest. *)
Theorem duplicate_email_is_shadowed env env' req req' db e p l1 d l2 h :
  body req !! "email" = Some (JStr e) →
  body req !! "password" = Some (JStr p) →
  (body req !! "username" = None
   ∨ ∃ s, body req !! "username" = Some (JStr s)) →
  body req' !! "email" = Some (JStr e) →
  body req' !! "password" = Some (JStr p) →
  store_fault env = None →
  store_fault env' = None →
  Forall (λ x, User._id x ≠ new_ObjectId env) (users db) →
  users db = l1 ++ d :: l2 →
  Forall (λ x, User.email x ≠ FStr e) l1 →
  User.email d = FStr e →
  User.password d = FStr h →
  bcrypt.compareSync p h = false →
  ∃ db1 d2,
    app POST_register env req db
    = (status_json 201 (message "User registered successfully"), db1)
    ∧ users db1 = users db ++ [d2]
    ∧ User.email d2 = FStr e
    ∧ app POST_login env' req' db1
      = (status_json 401 (error "Invalid credentials"), db1).
Proof.
  intros He Hp Hu He' Hp' Hs Hs' Hfresh Hdb Hl1 Hd Hh Hm. simpl.
  assert (∃ f, castString (get (body req) "username") = Ok f) as [f Hf].
  { destruct Hu as [Hu|[s Hu]]; unfold get; rewrite Hu; simpl.
    - exists FAbsent. apply castString_undefined.
    - exists (FStr s). apply castString_string. }
  eexists _, _. split_and!.
  - apply (post_register_created _ _ _ p f (FStr e)); try done; unfold get.
    + by rewrite Hp.
    + rewrite He. apply castString_string.
  - done.
  - done.
  - unfold post_login.
    rewrite (get_Some _ _ _ He'), (get_Some _ _ _ Hp'). simpl.
    rewrite Hdb, <-app_assoc. simpl.
    rewrite (findOne_first env' e l1 _ d) by done. simpl. rewrite Hh.
    simpl. by rewrite Hm.
Qed.

(** *** Values of the update and the list *)

(** X21: PUT clears on every falsy value, not only on a missing key.  In a
    PUT that answers 200, a code key whose value in the body is falsy
    ([null], [false], [0], the empty string, or no value) is stored as the
    empty string, and a code key given as a string is stored as that
    string. *)
Theorem put_project_stores_truthy_or_empty env req db u res db' :
  authenticated env req u →
  app PUT_project env req db = (res, db') →
  statusCode res = 200 →
  ∃ d', d' ∈ projects db'
        ∧ res = status_json 200 (Project.toJSON d')
        ∧ (truthy (get (body req) "htmlCode") = false →
           Project.htmlCode d' = FStr "")
        ∧ (truthy (get (body req) "cssCode") = false →
           Project.cssCode d' = FStr "")
        ∧ (truthy (get (body req) "jsCode") = false →
           Project.jsCode d' = FStr "")
        ∧ (∀ s, body req !! "htmlCode" = Some (JStr s) →
                Project.htmlCode d' = FStr s)
        ∧ (∀ s, body req !! "cssCode" = Some (JStr s) →
                Project.cssCode d' = FStr s)
        ∧ (∀ s, body req !! "jsCode" = Some (JStr s) →
                Project.jsCode d' = FStr s).
Proof.
  intros Ha. simpl. rewrite (authenticateToken_accepts _ _ _ _ u) by done.
  intros Hout Hres.
  destruct (put_project_200 env (set_user req u) db)
    as (oid & i & d & d' & _ & _ & Hf & Hd' & Hput).
  { by rewrite Hout. }
  rewrite Hout in Hput. injection Hput as -> ->. exists d'.
  apply list_find_Some in Hf as (Hi & _).
  apply set_code_Ok in Hd' as (h' & c' & j' & Hh & Hc & Hj & ->).
  simpl in *.
  assert (∀ v f, castString (js_or v (JStr "")) = Ok f →
                 (truthy v = false → f = FStr "")
                 ∧ (∀ s, v = JStr s → f = FStr s)) as Hor.
  { intros v f Hcast. unfold js_or in Hcast. split.
    - intros Hv. rewrite Hv, castString_string in Hcast. congruence.
    - intros s ->. simpl in Hcast. destruct (String.eqb s "") eqn:Hs.
      + apply String.eqb_eq in Hs as ->. simpl in Hcast.
        rewrite castString_string in Hcast. congruence.
      + simpl in Hcast. rewrite castString_string in Hcast. congruence. }
  destruct (Hor _ _ Hh) as [Hh1 Hh2], (Hor _ _ Hc) as [Hc1 Hc2],
    (Hor _ _ Hj) as [Hj1 Hj2].
  split_and!; try done.
  - apply list_elem_of_lookup. exists i.
    apply list_lookup_insert_eq. by eapply lookup_lt_Some.
  - intros s Hb. apply Hh2. by apply get_Some.
  - intros s Hb. apply Hc2. by apply get_Some.
  - intros s Hb. apply Hj2. by apply get_Some.
Qed.

(** X22: the list is the caller's projects, all of them and no others.  For
    an authenticated caller, on a store that answers, GET [/projects] is
    200 with an array of stored projects, in the order of the collection,
    that holds a project exactly when its [userId] is the caller's; with no
    such project it is 200 with the empty array. *)
Theorem get_projects_lists_the_callers env req db u :
  authenticated env req u →
  store_fault env = None →
  ∃ ps,
    app GET_projects env req db
    = (status_json 200 (JArr (Project.toJSON <$> ps)), db)
    ∧ ps `sublist_of` projects db
    ∧ (∀ d, d ∈ ps ↔
            d ∈ projects db ∧ Project.userId d = FStr (Claims.userId u))
    ∧ (Forall (λ d, Project.userId d ≠ FStr (Claims.userId u)) (projects db)
       → ps = []).
Proof.
  intros Ha Hs. eexists. split_and!.
  - by apply get_projects_found.
  - apply sublist_filter.
  - intros d. rewrite list_elem_of_filter. naive_solver.
  - intros Hall. induction Hall as [|d l Hd _ IH]; [done|].
    by rewrite filter_cons_False.
Qed.

End Routes.

(** ** The statements at the sample data

    Each theorem above is applied here to the reference instance and the
    sample store, its premises discharged by evaluation. *)

#[local] Existing Instances Ref.bcrypt Ref.jwt Ref.mongoose.

Lemma sample_authenticated (uid fresh : ObjectId) id b :
  authenticated (Sample.env fresh)
    (Sample.request (Sample.token uid) id b) (Sample.claims uid).
Proof. by exists ("jwt." +:+ uid). Qed.

(** C7 at the sample store: no header, a token behind ["Bearer "], and the
    token itself. *)
Lemma authenticateToken_rejects_witness :
  authenticateToken get_protected (Sample.env Sample.nobody)
    (Sample.request None "" ∅) Sample.db
  = ({| statusCode := 401; sent := text "Unauthorized" |}, Sample.db)
  ∧ authenticateToken get_protected (Sample.env Sample.nobody)
      (Sample.request (Some ("Bearer jwt." +:+ Sample.alice)) "" ∅) Sample.db
    = ({| statusCode := 403; sent := text "Forbidden" |}, Sample.db)
  ∧ authenticateToken get_protected (Sample.env Sample.nobody)
      (Sample.request (Sample.token Sample.alice) "" ∅) Sample.db
    = (status_json 200 (message "Access granted!"), Sample.db).
Proof.
  split_and!.
  - apply (authenticateToken_rejects get_protected). reflexivity.
  - eapply (authenticateToken_rejects get_protected); reflexivity.
  - eapply eq_trans;
      [eapply (authenticateToken_rejects get_protected); reflexivity|].
    reflexivity.
Defined.

(** C1 at the sample store: Bob on Alice's project. *)
Lemma project_by_id_ignores_caller_witness :
  let env := Sample.env Sample.nobody in
  let owner := Sample.request (Sample.token Sample.alice) Sample.site ∅ in
  let other := Sample.request (Sample.token Sample.bob) Sample.site ∅ in
  (app GET_project env other Sample.db = app GET_project env owner Sample.db
   ∧ app PUT_project env other Sample.db = app PUT_project env owner Sample.db
   ∧ app DELETE_project env other Sample.db
     = app DELETE_project env owner Sample.db)
  ∧ app GET_project env other Sample.db
    = (status_json 200 (Project.toJSON Sample.site_doc), Sample.db).
Proof.
  intros env owner other.
  destruct (project_by_id_ignores_caller env Sample.db other owner
              (Sample.claims Sample.bob) (Sample.claims Sample.alice))
    as [Hsame Hany];
    [reflexivity | reflexivity | apply sample_authenticated
    | apply sample_authenticated |].
  split; [exact Hsame|].
  apply (Hany Sample.site_doc). reflexivity.
Defined.

(** C2 at the sample store: an id the store never held, and the id of a
    project just deleted. *)
Lemma get_missing_project_is_200_null_witness :
  let env := Sample.env Sample.nobody in
  app GET_project env
    (Sample.request (Sample.token Sample.alice) Sample.nobody ∅) Sample.db
  = (status_json 200 JNull, Sample.db)
  ∧ (app DELETE_project env
       (Sample.request (Sample.token Sample.alice) Sample.site ∅) Sample.db
     = (status_json 200 (message "Project deleted successfully"),
        Sample.empty)
     ∧ app GET_project env
         (Sample.request (Sample.token Sample.alice) Sample.site ∅)
         Sample.empty
       = (status_json 200 JNull, Sample.empty)).
Proof.
  intros env. split.
  - apply (get_missing_project_is_200_null env _ Sample.db
             (Sample.claims Sample.alice) Sample.nobody);
      [apply sample_authenticated | reflexivity | reflexivity |].
    repeat constructor. discriminate.
  - split; [reflexivity|].
    eapply (get_missing_project_is_200_null env _ Sample.db
              (Sample.claims Sample.alice) Sample.site);
      [apply sample_authenticated | reflexivity | reflexivity | | | ].
    + unfold unique_ids. simpl. repeat constructor. set_solver.
    + reflexivity.
    + reflexivity.
Defined.


(** C9 at the store with two projects: Alice's PUT to Bob's project, the
    second of the collection, sets [htmlCode] only; the first project is
    as it was. *)
Lemma put_project_frame_witness :
  let req := Sample.request (Sample.token Sample.alice) Sample.blog
               {[ "htmlCode" := JStr "<p>y</p>" ]} in
  let out := app PUT_project (Sample.env Sample.nobody) req
               Sample.two_projects in
  (statusCode out.1 = 200
   ∧ projects out.2
     = [Sample.site_doc;
        {| Project._id := Sample.blog; Project.name := FStr "Blog";
           Project.userId := FStr Sample.bob;
           Project.htmlCode := FStr "<p>y</p>";
           Project.cssCode := FStr ""; Project.jsCode := FStr "";
           Project.__v := 0 |}])
  ∧ users out.2 = users Sample.two_projects
  ∧ ∃ i d d',
      projects Sample.two_projects !! i = Some d
      ∧ castObjectId (projectId (params req)) = Ok (Project._id d)
      ∧ (∀ j x, (j < i)%nat → projects Sample.two_projects !! j = Some x →
                Project._id x ≠ Project._id d)
      ∧ new_code req d = Ok d'
      ∧ out.1 = status_json 200 (Project.toJSON d')
      ∧ projects out.2 = <[i := d']> (projects Sample.two_projects)
      ∧ projects out.2 !! i = Some d'
      ∧ Project._id d' = Project._id d
      ∧ Project.name d' = Project.name d
      ∧ Project.userId d' = Project.userId d
      ∧ Project.__v d' = Project.__v d
      ∧ length (projects out.2) = length (projects Sample.two_projects)
      ∧ ∀ j, j ≠ i → projects out.2 !! j = projects Sample.two_projects !! j.
Proof.
  intros req out. split; [split; reflexivity|].
  destruct (put_project_frame (Sample.env Sample.nobody) req
              Sample.two_projects (Sample.claims Sample.alice) out.1 out.2)
    as [Hok _]; [apply sample_authenticated | apply surjective_pairing |].
  apply Hok. reflexivity.
Defined.

(** C5 at the sample store: Bob creates a project and names Alice as its
    [userId] in the body; the project stored is Bob's. *)
Lemma post_project_owner_is_caller_witness :
  let out := app POST_project (Sample.env Sample.blog)
               (Sample.request (Sample.token Sample.bob) ""
                  {[ "name" := JStr "Blog"; "userId" := JStr Sample.alice ]})
               Sample.db in
  out.1
  = status_json 201 (Project.toJSON
      {| Project._id := Sample.blog; Project.name := FStr "Blog";
         Project.userId := FStr Sample.bob;
         Project.htmlCode := FAbsent; Project.cssCode := FAbsent;
         Project.jsCode := FAbsent; Project.__v := 0 |})
  ∧ projects out.2
    = projects Sample.db ++
      [{| Project._id := Sample.blog; Project.name := FStr "Blog";
          Project.userId := FStr Sample.bob;
          Project.htmlCode := FAbsent; Project.cssCode := FAbsent;
          Project.jsCode := FAbsent; Project.__v := 0 |}]
  ∧ users out.2 = users Sample.db.
Proof.
  intros out.
  destruct (post_project_owner_is_caller (Sample.env Sample.blog)
              (Sample.request (Sample.token Sample.bob) ""
                 {[ "name" := JStr "Blog"; "userId" := JStr Sample.alice ]})
              Sample.db (Sample.claims Sample.bob))
    as (Hcreated & _ & _); [apply sample_authenticated|].
  apply (Hcreated (FStr "Blog") FAbsent FAbsent FAbsent);
    [reflexivity.. |].
  repeat constructor. discriminate.
Defined.

(** C6 on the empty store: two creations, then the list. *)
Lemma get_projects_oldest_first_witness :
  let create id name :=
    app POST_project (Sample.env id)
      (Sample.request (Sample.token Sample.alice) ""
         {[ "name" := JStr name ]}) in
  let first := create Sample.site "first" Sample.empty in
  let second := create Sample.blog "second" first.2 in
  ∃ d1 d2,
    first.1 = status_json 201 (Project.toJSON d1)
    ∧ second.1 = status_json 201 (Project.toJSON d2)
    ∧ app GET_projects (Sample.env Sample.nobody)
        (Sample.request (Sample.token Sample.alice) "" ∅) second.2
      = (status_json 200 (JArr ([] ++ [Project.toJSON d1; Project.toJSON d2])),
         second.2).
Proof.
  intros create first second.
  apply (get_projects_oldest_first
           (Sample.env Sample.site) (Sample.env Sample.blog)
           (Sample.env Sample.nobody)
           (Sample.request (Sample.token Sample.alice) ""
              {[ "name" := JStr "first" ]})
           (Sample.request (Sample.token Sample.alice) ""
              {[ "name" := JStr "second" ]})
           (Sample.request (Sample.token Sample.alice) "" ∅)
           Sample.empty (Sample.claims Sample.alice)
           first.1 first.2 second.1 second.2);
    [apply sample_authenticated.. | apply surjective_pairing | reflexivity
    | apply surjective_pairing | reflexivity | reflexivity].
Defined.

(** C8, amended, on the empty store: a creation that gives [cssCode]
    only. *)
Lemma post_project_omitted_code_unset_witness :
  let out := app POST_project (Sample.env Sample.site)
               (Sample.request (Sample.token Sample.alice) ""
                  {[ "name" := JStr "Site"; "cssCode" := JStr "h1 {}" ]})
               Sample.empty in
  ∃ d, projects out.2 = [d]
       ∧ Project.htmlCode d = FAbsent
       ∧ Project.cssCode d = FStr "h1 {}"
       ∧ Project.jsCode d = FAbsent.
Proof.
  intros out.
  destruct (post_project_omitted_code_unset (Sample.env Sample.site)
              (Sample.request (Sample.token Sample.alice) ""
                 {[ "name" := JStr "Site"; "cssCode" := JStr "h1 {}" ]})
              Sample.empty (Sample.claims Sample.alice) out.1 out.2)
    as (d & Hps & _ & Hh & _ & Hj & _ & Hc & _);
    [apply sample_authenticated | apply surjective_pairing | reflexivity |].
  exists d. split_and!.
  - exact Hps.
  - apply Hh. reflexivity.
  - apply Hc. reflexivity.
  - apply Hj. reflexivity.
Defined.

(** C8 as the claim has it fails: a project created without [htmlCode] is
    stored with the path unset, not with the empty string. *)
Lemma post_project_omitted_code_not_empty_string :
  let out := app POST_project (Sample.env Sample.site)
               (Sample.request (Sample.token Sample.alice) ""
                  {[ "name" := JStr "Site" ]})
               Sample.empty in
  body (Sample.request (Sample.token Sample.alice) ""
          {[ "name" := JStr "Site" ]}) !! "htmlCode" = None
  ∧ statusCode out.1 = 201
  ∧ projects out.2
    = [{| Project._id := Sample.site; Project.name := FStr "Site";
          Project.userId := FStr Sample.alice;
          Project.htmlCode := FAbsent; Project.cssCode := FAbsent;
          Project.jsCode := FAbsent; Project.__v := 0 |}]
  ∧ ¬ ∃ d, d ∈ projects out.2 ∧ Project.htmlCode d = FStr "".
Proof.
  intros out. split_and!; [reflexivity..|].
  intros (d & Hd & Hh). vm_compute in Hd.
  apply list_elem_of_singleton in Hd as ->. discriminate.
Qed.

(** C10, amended, on the sample accounts: a registration with a password
    only, one with everything but the password, and one with a number as
    the password. *)
Lemma register_requires_only_password_witness :
  let created := app POST_register (Sample.env Sample.site)
                   (Sample.request None "" {[ "password" := JStr "pw" ]})
                   Sample.accounts in
  (created.1 = status_json 201 (message "User registered successfully")
   ∧ users created.2
     = users Sample.accounts ++
       [{| User._id := Sample.site; User.username := FAbsent;
           User.email := FAbsent; User.password := FStr "pw";
           User.__v := 0 |}])
  ∧ app POST_register (Sample.env Sample.site)
      (Sample.request None ""
         {[ "username" := JStr "ann"; "email" := JStr "ann@example.org" ]})
      Sample.accounts
    = (status_json 400 (error "Illegal arguments: undefined, number"),
       Sample.accounts)
  ∧ app POST_register (Sample.env Sample.site)
      (Sample.request None ""
         {[ "username" := JStr "ann"; "password" := JNum 12345 ]})
      Sample.accounts
    = (status_json 400 (error "Illegal arguments: number, number"),
       Sample.accounts).
Proof.
  intros created. split; [|split].
  - destruct (register_requires_only_password (Sample.env Sample.site)
                (Sample.request None "" {[ "password" := JStr "pw" ]})
                Sample.accounts) as (_ & Hcreated & _).
    apply (Hcreated "pw"); [reflexivity.. |].
    repeat constructor; discriminate.
  - destruct (register_requires_only_password (Sample.env Sample.site)
                (Sample.request None ""
                   {[ "username" := JStr "ann";
                      "email" := JStr "ann@example.org" ]})
                Sample.accounts) as (_ & _ & _ & Hrefused & _).
    apply Hrefused. reflexivity.
  - destruct (register_requires_only_password (Sample.env Sample.site)
                (Sample.request None ""
                   {[ "username" := JStr "ann"; "password" := JNum 12345 ]})
                Sample.accounts) as (_ & _ & Hrefused & _).
    apply Hrefused. intros p. discriminate.
Defined.

(** C10 as the claim has it fails twice.  A request whose password is
    present but not a string (here a number) is refused with 400 although
    no password is absent; and a request with a valid string password is
    refused with 400 when [username] is an object, which the reference cast
    of a [String] path rejects as Mongoose does. *)
Lemma register_fails_beyond_absent_password :
  let number := Sample.request None ""
                  {[ "username" := JStr "ann";
                     "email" := JStr "ann@example.org";
                     "password" := JNum 12345 ]} in
  let object := Sample.request None ""
                  {[ "username" := JObj {[ "first" := JStr "ann" ]};
                     "email" := JStr "ann@example.org";
                     "password" := JStr "pw" ]} in
  (body number !! "password" ≠ None
   ∧ app POST_register (Sample.env Sample.site) number Sample.accounts
     = (status_json 400 (error "Illegal arguments: number, number"),
        Sample.accounts))
  ∧ (body object !! "password" = Some (JStr "pw")
     ∧ app POST_register (Sample.env Sample.site) object Sample.accounts
       = (status_json 400 (error "Cast to string failed"), Sample.accounts)).
Proof.
  intros number object. split_and!; try reflexivity.
  vm_compute. discriminate.
Qed.

(** C4 on the empty store. *)
Lemma register_then_login_witness :
  ∃ db1 created token c,
    app POST_register (Sample.env Sample.alice)
      (Sample.request None ""
         {[ "username" := JStr "ann"; "email" := JStr "ann@example.org";
            "password" := JStr "pw" ]})
      Sample.empty
    = (status_json 201 (message "User registered successfully"), db1)
    ∧ users db1 = users Sample.empty ++ [created]
    ∧ User.email created = FStr "ann@example.org"
    ∧ app POST_login (Sample.env Sample.nobody)
        (Sample.request None ""
           {[ "email" := JStr "ann@example.org"; "password" := JStr "pw" ]})
        db1
      = (status_json 200 (JObj {[ "token" := JStr token ]}), db1)
    ∧ jwt.verify token (JWT_SECRET (Sample.env Sample.nobody))
        (now (Sample.env Sample.nobody)) = Ok c
    ∧ Claims.userId c = User._id created.
Proof.
  apply (register_then_login (Sample.env Sample.alice)
           (Sample.env Sample.nobody) Sample.empty
           (Sample.request None ""
              {[ "username" := JStr "ann"; "email" := JStr "ann@example.org";
                 "password" := JStr "pw" ]})
           (Sample.request None ""
              {[ "email" := JStr "ann@example.org"; "password" := JStr "pw" ]})
           "ann" "ann@example.org" "pw");
    [reflexivity.. | constructor | constructor | discriminate].
Defined.

(** *** The further properties at the sample data *)

(** The unique ids after a DELETE on the sample store. *)
Lemma routes_keep_ids_unique_witness :
  let out := app DELETE_project (Sample.env Sample.nobody)
               (Sample.request (Sample.token Sample.bob) Sample.site ∅)
               Sample.db in
  NoDup (User._id <$> users out.2) ∧ unique_ids (projects out.2).
Proof.
  intros out.
  apply (routes_keep_ids_unique DELETE_project (Sample.env Sample.nobody)
           (Sample.request (Sample.token Sample.bob) Sample.site ∅)
           Sample.db).
  - constructor.
  - unfold unique_ids. simpl. repeat constructor. set_solver.
Defined.

(** PUT on the sample store without a token, and with one that does not
    verify. *)
Lemma protected_routes_need_token_witness :
  app PUT_project (Sample.env Sample.nobody)
    (Sample.request None Sample.site ∅) Sample.db
  = ({| statusCode := 401; sent := text "Unauthorized" |}, Sample.db)
  ∧ app PUT_project (Sample.env Sample.nobody)
      (Sample.request (Some "not a token") Sample.site ∅) Sample.db
    = ({| statusCode := 403; sent := text "Forbidden" |}, Sample.db).
Proof.
  split.
  - destruct (protected_routes_need_token PUT_project
                (Sample.env Sample.nobody)
                (Sample.request None Sample.site ∅) Sample.db)
      as [H401 _]; [discriminate..|].
    apply H401. reflexivity.
  - destruct (protected_routes_need_token PUT_project
                (Sample.env Sample.nobody)
                (Sample.request (Some "not a token") Sample.site ∅) Sample.db)
      as [_ H403]; [discriminate..|].
    apply (H403 "not a token" "jwt malformed"); reflexivity.
Defined.

(** DELETE and PUT of an id the sample store does not hold. *)
Lemma delete_and_put_missing_project_404_witness :
  app DELETE_project (Sample.env Sample.nobody)
    (Sample.request (Sample.token Sample.alice) Sample.nobody ∅) Sample.db
  = (status_json 404 (message "Project not found"), Sample.db)
  ∧ app PUT_project (Sample.env Sample.nobody)
      (Sample.request (Sample.token Sample.alice) Sample.nobody ∅) Sample.db
    = (status_json 404 (error "Project not found"), Sample.db).
Proof.
  apply (delete_and_put_missing_project_404 (Sample.env Sample.nobody)
           (Sample.request (Sample.token Sample.alice) Sample.nobody ∅)
           Sample.db (Sample.claims Sample.alice) Sample.nobody);
    [apply sample_authenticated | reflexivity | reflexivity |].
  repeat constructor. discriminate.
Defined.

(** The routes on one project with the parameter ["42"]. *)
Lemma malformed_project_id_500_witness :
  let req := Sample.request (Sample.token Sample.alice) "42" ∅ in
  let env := Sample.env Sample.nobody in
  app GET_project env req Sample.db
  = (status_json 500 (error "Cast to ObjectId failed"), Sample.db)
  ∧ app DELETE_project env req Sample.db
    = (status_json 500 (error "Cast to ObjectId failed"), Sample.db)
  ∧ app PUT_project env req Sample.db
    = (status_json 500 (error "Failed to save project code"), Sample.db).
Proof.
  intros req env.
  apply (malformed_project_id_500 env req Sample.db
           (Sample.claims Sample.alice) "Cast to ObjectId failed");
    [apply sample_authenticated | reflexivity].
Defined.

(** The routes on the sample store while the store is down. *)
Lemma store_fault_is_an_error_response_witness :
  let req := Sample.request (Sample.token Sample.alice) Sample.site
               {[ "password" := JStr "pw" ]} in
  (statusCode (app POST_register Sample.down req Sample.db).1 = 400
   ∧ statusCode (app POST_login Sample.down req Sample.db).1 = 400
   ∧ statusCode (app POST_project Sample.down req Sample.db).1 = 400
   ∧ statusCode (app GET_projects Sample.down req Sample.db).1 = 500
   ∧ statusCode (app GET_project Sample.down req Sample.db).1 = 500
   ∧ statusCode (app DELETE_project Sample.down req Sample.db).1 = 500
   ∧ statusCode (app PUT_project Sample.down req Sample.db).1 = 500)
  ∧ ∀ r, (app r Sample.down req Sample.db).2 = Sample.db.
Proof.
  intros req.
  apply (store_fault_is_an_error_response Sample.down req Sample.db
           (Sample.claims Sample.alice) "connection refused");
    [reflexivity | by exists ("jwt." +:+ Sample.alice)].
Defined.

(** Bob's DELETE of Alice's project on the sample store. *)
Lemma delete_project_frame_witness :
  let out := app DELETE_project (Sample.env Sample.nobody)
               (Sample.request (Sample.token Sample.bob) Sample.site ∅)
               Sample.db in
  statusCode out.1 = 200
  ∧ users out.2 = users Sample.db
  ∧ ∃ i d,
      projects Sample.db !! i = Some d
      ∧ castObjectId Sample.site = Ok (Project._id d)
      ∧ projects out.2 = delete i (projects Sample.db)
      ∧ ∀ x, x ∈ projects out.2 → x ∈ projects Sample.db.
Proof.
  intros out. split; [reflexivity|].
  apply (delete_project_frame (Sample.env Sample.nobody)
           (Sample.request (Sample.token Sample.bob) Sample.site ∅)
           Sample.db (Sample.claims Sample.bob) out.1 out.2);
    [apply sample_authenticated | apply surjective_pairing | reflexivity].
Defined.

(** A registration on the empty store. *)
Lemma post_register_frame_witness :
  let out := app POST_register (Sample.env Sample.alice)
               (Sample.login "ann@example.org" "pw") Sample.empty in
  statusCode out.1 = 201
  ∧ projects out.2 = projects Sample.empty
  ∧ ∃ d p,
      users out.2 = users Sample.empty ++ [d]
      ∧ User._id d = Sample.alice
      ∧ body (Sample.login "ann@example.org" "pw") !! "password"
        = Some (JStr p)
      ∧ User.password d = FStr (bcrypt.hashSync p 10 "salt").
Proof.
  intros out.
  destruct (post_register_frame (Sample.env Sample.alice)
              (Sample.login "ann@example.org" "pw") Sample.empty
              out.1 out.2) as (Hprojects & Hcreated & _);
    [apply surjective_pairing|].
  split_and!; [reflexivity | exact Hprojects | apply Hcreated; reflexivity].
Defined.

(** A creation on the sample store. *)
Lemma post_project_frame_witness :
  let out := app POST_project (Sample.env Sample.blog)
               (Sample.request (Sample.token Sample.bob) ""
                  {[ "name" := JStr "Blog" ]})
               Sample.db in
  statusCode out.1 = 201
  ∧ users out.2 = users Sample.db
  ∧ ∃ d, projects out.2 = projects Sample.db ++ [d]
         ∧ Project._id d = Sample.blog
         ∧ out.1 = status_json 201 (Project.toJSON d).
Proof.
  intros out.
  destruct (post_project_frame (Sample.env Sample.blog)
              (Sample.request (Sample.token Sample.bob) ""
                 {[ "name" := JStr "Blog" ]})
              Sample.db (Sample.claims Sample.bob) out.1 out.2)
    as (Husers & Hcreated & _);
    [apply sample_authenticated | apply surjective_pairing |].
  split_and!; [reflexivity | exact Husers | apply Hcreated; reflexivity].
Defined.

(** Bob's creation on the sample store, then Alice's GET of the new id. *)
Lemma create_then_get_witness :
  let created := app POST_project (Sample.env Sample.blog)
                   (Sample.request (Sample.token Sample.bob) ""
                      {[ "name" := JStr "Blog" ]})
                   Sample.db in
  ∃ d, created.1 = status_json 201 (Project.toJSON d)
       ∧ app GET_project (Sample.env Sample.nobody)
           (Sample.request (Sample.token Sample.alice) Sample.blog ∅)
           created.2
         = (status_json 200 (Project.toJSON d), created.2).
Proof.
  intros created.
  apply (create_then_get (Sample.env Sample.blog) (Sample.env Sample.nobody)
           (Sample.request (Sample.token Sample.bob) ""
              {[ "name" := JStr "Blog" ]})
           (Sample.request (Sample.token Sample.alice) Sample.blog ∅)
           Sample.db (Sample.claims Sample.bob) (Sample.claims Sample.alice)
           created.1 created.2);
    [apply sample_authenticated | apply surjective_pairing | reflexivity
    | apply sample_authenticated | reflexivity | reflexivity].
Defined.

(** Bob's creation on the sample store, then the DELETE of the new id. *)
Lemma create_then_delete_restores_witness :
  let created := app POST_project (Sample.env Sample.blog)
                   (Sample.request (Sample.token Sample.bob) ""
                      {[ "name" := JStr "Blog" ]})
                   Sample.db in
  app DELETE_project (Sample.env Sample.nobody)
    (Sample.request (Sample.token Sample.bob) Sample.blog ∅) created.2
  = (status_json 200 (message "Project deleted successfully"), Sample.db).
Proof.
  intros created.
  apply (create_then_delete_restores (Sample.env Sample.blog)
           (Sample.env Sample.nobody)
           (Sample.request (Sample.token Sample.bob) ""
              {[ "name" := JStr "Blog" ]})
           (Sample.request (Sample.token Sample.bob) Sample.blog ∅)
           Sample.db (Sample.claims Sample.bob) (Sample.claims Sample.bob)
           created.1 created.2);
    [apply sample_authenticated | apply surjective_pairing | reflexivity
    | apply sample_authenticated | reflexivity | reflexivity].
Defined.

(** Two DELETEs of the sample project. *)
Lemma delete_twice_404_witness :
  let req := Sample.request (Sample.token Sample.alice) Sample.site ∅ in
  let first := app DELETE_project (Sample.env Sample.nobody) req Sample.db in
  statusCode first.1 = 200
  ∧ app DELETE_project (Sample.env Sample.nobody) req first.2
    = (status_json 404 (message "Project not found"), first.2).
Proof.
  intros req first. split; [reflexivity|].
  apply (delete_twice_404 (Sample.env Sample.nobody)
           (Sample.env Sample.nobody) req Sample.db
           (Sample.claims Sample.alice) (Sample.claims Sample.alice)
           first.1 first.2);
    [apply sample_authenticated | apply sample_authenticated | | reflexivity
    | apply surjective_pairing | reflexivity].
  unfold unique_ids. simpl. repeat constructor. set_solver.
Defined.

(** The same PUT twice on the sample store. *)
Lemma put_project_idempotent_witness :
  let req := Sample.request (Sample.token Sample.bob) Sample.site
               {[ "htmlCode" := JStr "<p>y</p>" ]} in
  let first := app PUT_project (Sample.env Sample.nobody) req Sample.db in
  statusCode first.1 = 200
  ∧ app PUT_project (Sample.env Sample.nobody) req first.2
    = (first.1, first.2).
Proof.
  intros req first. split; [reflexivity|].
  apply (put_project_idempotent (Sample.env Sample.nobody)
           (Sample.env Sample.nobody) req Sample.db
           (Sample.claims Sample.bob) (Sample.claims Sample.bob));
    [apply sample_authenticated | apply sample_authenticated | reflexivity
    | apply surjective_pairing | reflexivity].
Defined.

(** The project Bob's PUT leaves in the sample store. *)
Lemma no_route_changes_owner_witness :
  let d' := {| Project._id := Sample.site; Project.name := FStr "Site";
               Project.userId := FStr Sample.alice;
               Project.htmlCode := FStr "<p>y</p>";
               Project.cssCode := FStr ""; Project.jsCode := FStr "";
               Project.__v := 0 |} in
  d' ∈ projects Sample.db
  ∨ (PUT_project = POST_project
     ∧ Project._id d' = new_ObjectId (Sample.env Sample.nobody))
  ∨ (PUT_project = PUT_project
     ∧ ∃ d, d ∈ projects Sample.db
            ∧ Project._id d' = Project._id d
            ∧ Project.name d' = Project.name d
            ∧ Project.userId d' = Project.userId d
            ∧ Project.__v d' = Project.__v d).
Proof.
  intros d'.
  apply (no_route_changes_owner PUT_project (Sample.env Sample.nobody)
           (Sample.request (Sample.token Sample.bob) Sample.site
              {[ "htmlCode" := JStr "<p>y</p>" ]})
           Sample.db d').
  apply list_elem_of_singleton. reflexivity.
Defined.

(** A login under an email the sample accounts do not have. *)
Lemma login_unknown_email_404_witness :
  app POST_login (Sample.env Sample.nobody)
    (Sample.login "bob@example.org" "pw") Sample.accounts
  = (status_json 404 (error "User not found"), Sample.accounts).
Proof.
  apply (login_unknown_email_404 (Sample.env Sample.nobody)
           (Sample.login "bob@example.org" "pw") Sample.accounts
           "bob@example.org"); [reflexivity | reflexivity |].
  repeat constructor; discriminate.
Defined.

(** Logins to the first sample account with a wrong password and with
    none. *)
Lemma login_wrong_or_missing_password_witness :
  app POST_login (Sample.env Sample.nobody)
    (Sample.login "ann@example.org" "guess") Sample.accounts
  = (status_json 401 (error "Invalid credentials"), Sample.accounts)
  ∧ app POST_login (Sample.env Sample.nobody)
      (Sample.request None "" {[ "email" := JStr "ann@example.org" ]})
      Sample.accounts
    = (status_json 400 (error "Illegal arguments: undefined, string"),
       Sample.accounts).
Proof.
  split.
  - destruct (login_wrong_or_missing_password (Sample.env Sample.nobody)
                (Sample.login "ann@example.org" "guess") Sample.accounts
                "ann@example.org" [] Sample.ann [Sample.ann_again] "pw")
      as [H401 _]; [reflexivity | reflexivity | reflexivity | constructor
                   | reflexivity | reflexivity |].
    apply (H401 "guess"); reflexivity.
  - destruct (login_wrong_or_missing_password (Sample.env Sample.nobody)
                (Sample.request None ""
                   {[ "email" := JStr "ann@example.org" ]})
                Sample.accounts
                "ann@example.org" [] Sample.ann [Sample.ann_again] "pw")
      as [_ H400]; [reflexivity | reflexivity | reflexivity | constructor
                   | reflexivity | reflexivity |].
    apply H400. reflexivity.
Defined.

(** A login to the sample accounts: the token is the first account's. *)
Lemma login_resolves_first_user_witness :
  ∃ token c,
    app POST_login (Sample.env Sample.nobody)
      (Sample.login "ann@example.org" "pw") Sample.accounts
    = (status_json 200 (JObj {[ "token" := JStr token ]}), Sample.accounts)
    ∧ jwt.verify token (JWT_SECRET (Sample.env Sample.nobody))
        (now (Sample.env Sample.nobody)) = Ok c
    ∧ Claims.userId c = User._id Sample.ann.
Proof.
  apply (login_resolves_first_user (Sample.env Sample.nobody)
           (Sample.login "ann@example.org" "pw") Sample.accounts
           "ann@example.org" "pw" [] Sample.ann [Sample.ann_again] "pw");
    [reflexivity | reflexivity | reflexivity | discriminate | reflexivity
    | constructor | reflexivity | reflexivity | reflexivity].
Defined.

(** What a successful login to the sample accounts implies. *)
Lemma login_200_requires_password_match_witness :
  ∃ d p h token,
    d ∈ users Sample.accounts
    ∧ body (Sample.login "ann@example.org" "pw") !! "password"
      = Some (JStr p)
    ∧ User.password d = FStr h
    ∧ bcrypt.compareSync p h = true
    ∧ app POST_login (Sample.env Sample.nobody)
        (Sample.login "ann@example.org" "pw") Sample.accounts
      = (status_json 200 (JObj {[ "token" := JStr token ]}), Sample.accounts)
    ∧ ∀ env' req',
        JWT_SECRET env' = JWT_SECRET (Sample.env Sample.nobody) →
        now (Sample.env Sample.nobody) ≤ now env'
        < now (Sample.env Sample.nobody) + 3600 →
        header req' "Authorization" = Some token →
        ∃ c, authenticated env' req' c ∧ Claims.userId c = User._id d.
Proof.
  apply (login_200_requires_password_match (Sample.env Sample.nobody)
           (Sample.login "ann@example.org" "pw") Sample.accounts).
  reflexivity.
Defined.

(** A second registration under the email of the first sample account, and
    the login with its password. *)
Lemma duplicate_email_is_shadowed_witness :
  let db := {| users := [Sample.ann]; projects := [] |} in
  ∃ db1 d2,
    app POST_register (Sample.env Sample.bob)
      (Sample.login "ann@example.org" "other") db
    = (status_json 201 (message "User registered successfully"), db1)
    ∧ users db1 = users db ++ [d2]
    ∧ User.email d2 = FStr "ann@example.org"
    ∧ app POST_login (Sample.env Sample.nobody)
        (Sample.login "ann@example.org" "other") db1
      = (status_json 401 (error "Invalid credentials"), db1).
Proof.
  intros db.
  apply (duplicate_email_is_shadowed (Sample.env Sample.bob)
           (Sample.env Sample.nobody)
           (Sample.login "ann@example.org" "other")
           (Sample.login "ann@example.org" "other") db
           "ann@example.org" "other" [] Sample.ann [] "pw");
    [reflexivity | reflexivity | by left | reflexivity | reflexivity
    | reflexivity | reflexivity | | reflexivity | constructor | reflexivity
    | reflexivity | reflexivity].
  repeat constructor. discriminate.
Defined.

(** A PUT on the sample store with [null], the empty string and a string. *)
Lemma put_project_stores_truthy_or_empty_witness :
  let req := Sample.request (Sample.token Sample.bob) Sample.site
               {[ "htmlCode" := JNull; "cssCode" := JStr "";
                  "jsCode" := JStr "y()" ]} in
  let out := app PUT_project (Sample.env Sample.nobody) req Sample.db in
  ∃ d', d' ∈ projects out.2
        ∧ Project.htmlCode d' = FStr ""
        ∧ Project.cssCode d' = FStr ""
        ∧ Project.jsCode d' = FStr "y()".
Proof.
  intros req out.
  destruct (put_project_stores_truthy_or_empty (Sample.env Sample.nobody)
              req Sample.db (Sample.claims Sample.bob) out.1 out.2)
    as (d' & Hin & _ & Hh & Hc & _ & _ & _ & Hj);
    [apply sample_authenticated | apply surjective_pairing | reflexivity |].
  exists d'. split_and!.
  - exact Hin.
  - apply Hh. reflexivity.
  - apply Hc. reflexivity.
  - apply (Hj "y()"). reflexivity.
Defined.

(** The lists of Alice and of Bob on the sample store. *)
Lemma get_projects_lists_the_callers_witness :
  (∃ ps,
     app GET_projects (Sample.env Sample.nobody)
       (Sample.request (Sample.token Sample.alice) "" ∅) Sample.db
     = (status_json 200 (JArr (Project.toJSON <$> ps)), Sample.db)
     ∧ ps `sublist_of` projects Sample.db
     ∧ (∀ d, d ∈ ps ↔
             d ∈ projects Sample.db ∧ Project.userId d = FStr Sample.alice)
     ∧ (Forall (λ d, Project.userId d ≠ FStr Sample.alice)
               (projects Sample.db) → ps = []))
  ∧ app GET_projects (Sample.env Sample.nobody)
      (Sample.request (Sample.token Sample.bob) "" ∅) Sample.db
    = (status_json 200 (JArr []), Sample.db).
Proof.
  split.
  - apply (get_projects_lists_the_callers (Sample.env Sample.nobody)
             (Sample.request (Sample.token Sample.alice) "" ∅) Sample.db
             (Sample.claims Sample.alice));
      [apply sample_authenticated | reflexivity].
  - destruct (get_projects_lists_the_callers (Sample.env Sample.nobody)
                (Sample.request (Sample.token Sample.bob) "" ∅) Sample.db
                (Sample.claims Sample.bob))
      as (ps & Hout & _ & _ & Hnone);
      [apply sample_authenticated | reflexivity |].
    rewrite Hout, Hnone; [reflexivity|].
    repeat constructor. discriminate.
Defined.
